(** * Query routing of the documentation assistant (app.py)

    A shallow embedding of the script [app.py]: the start-up validation of
    the environment, the three functions [classify_query],
    [get_kb_response] and [get_generic_response], and the chat handler that
    dispatches a query to one of the two answer paths.

    Python values that come back from the remote services are kept
    dynamically typed ([json]); subscripting, [len], [in] and iteration
    raise the exceptions the interpreter raises.  Effects (log records,
    Streamlit calls, remote calls) are appended to a trace; the chat
    history is a list carried in the state. *)

From Stdlib Require Import String Ascii List ZArith Lia Bool.
From stdpp Require Import base option list strings gmap.

Open Scope string_scope.
Open Scope list_scope.
Set Warnings "-register-all".

(* ===================================================================== *)
(** ** Text *)
(* ===================================================================== *)

(** Text is a sequence of 8-bit characters.  [lower] is [str.lower] on
    ASCII text: the letters A..Z move to a..z, every other character stays. *)

Module Text.

Definition lower_ascii (c : ascii) : ascii :=
  let n := nat_of_ascii c in
  if (65 <=? n)%nat && (n <=? 90)%nat then ascii_of_nat (n + 32) else c.

Fixpoint lower (s : string) : string :=
  match s with
  | EmptyString => EmptyString
  | String c s' => String (lower_ascii c) (lower s')
  end.

(** [starts_with p s]: [s.startswith(p)]. *)
Fixpoint starts_with (p s : string) : bool :=
  match p, s with
  | EmptyString, _ => true
  | String _ _, EmptyString => false
  | String a p', String b s' => if Ascii.eqb a b then starts_with p' s' else false
  end.

(** [contains needle hay]: the Python test [needle in hay] on two strings. *)
Fixpoint contains (needle hay : string) : bool :=
  if starts_with needle hay then true
  else match hay with
       | EmptyString => false
       | String _ hay' => contains needle hay'
       end.

(** [sep.join(parts)] on a list of strings. *)
Fixpoint join (sep : string) (parts : list string) : string :=
  match parts with
  | [] => ""
  | [p] => p
  | p :: rest => p +:+ sep +:+ join sep rest
  end.

(** The characters of a string, each as a string of length one. *)
Fixpoint chars (s : string) : list string :=
  match s with
  | EmptyString => []
  | String c s' => String c "" :: chars s'
  end.

Definition dquote : string := String "034"%char "".
Definition newline : string := String "010"%char "".

End Text.

(* ===================================================================== *)
(** ** Python values and the operations the script applies to them *)
(* ===================================================================== *)

Module Py.

(** What [json.loads] and the service clients hand back: [None], booleans,
    numbers, strings, lists and dicts with string keys.  A dict keeps its
    items in insertion order; a key occurs once, and [assoc] reads the first
    item with the key.  A float is kept as a decimal [m * 10^e]. *)
Inductive json : Type :=
| JNull
| JBool (b : bool)
| JInt (n : Z)
| JFloat (m e : Z)
| JStr (s : string)
| JArr (items : list json)
| JObj (fields : list (string * json)).

(** A subscript: [v['name']] or [v[0]]. *)
Inductive key : Type :=
| KStr (s : string)
| KInt (i : Z).

(** The subclasses of [Exception] that can reach an [except Exception]
    clause of the script.  [Raised cls msg] is an exception of a library
    (botocore, json, ...). *)
Inductive exn : Type :=
| KeyError (k : key)
| IndexError
| TypeError
| AttributeError
| NameError (name : string)
| ValueError (msg : string)
| Raised (cls msg : string).

Definition res (A : Type) : Type := exn + A.

Fixpoint assoc (k : string) (fields : list (string * json)) : option json :=
  match fields with
  | [] => None
  | (k', v) :: rest => if String.eqb k k' then Some v else assoc k rest
  end.

(** [l[i]] on a sequence: a negative index counts from the end. *)
Definition index {A : Type} (l : list A) (i : Z) : option A :=
  let n := Z.of_nat (length l) in
  let j := if (i <? 0)%Z then (i + n)%Z else i in
  if (0 <=? j)%Z && (j <? n)%Z then l !! Z.to_nat j else None.

(** [v[k]]. *)
Definition subscript (v : json) (k : key) : res json :=
  match v, k with
  | JObj fields, KStr s =>
      match assoc s fields with
      | Some x => inr x
      | None => inl (KeyError k)
      end
  | JObj _, KInt _ => inl (KeyError k)
  | JArr items, KInt i =>
      match index items i with
      | Some x => inr x
      | None => inl IndexError
      end
  | JArr _, KStr _ => inl TypeError
  | JStr s, KInt i =>
      match index (Text.chars s) i with
      | Some c => inr (JStr c)
      | None => inl IndexError
      end
  | JStr _, KStr _ => inl TypeError
  | _, _ => inl TypeError
  end.

(** [v[k1][k2]...[kn]], left to right. *)
Fixpoint path (v : json) (ks : list key) : res json :=
  match ks with
  | [] => inr v
  | k :: ks' =>
      match subscript v k with
      | inr x => path x ks'
      | inl e => inl e
      end
  end.

(** [len(v)]. *)
Definition len (v : json) : res Z :=
  match v with
  | JArr items => inr (Z.of_nat (length items))
  | JObj fields => inr (Z.of_nat (length fields))
  | JStr s => inr (Z.of_nat (String.length s))
  | _ => inl TypeError
  end.

Definition is_str (s : string) (v : json) : bool :=
  match v with
  | JStr s' => String.eqb s s'
  | _ => false
  end.

(** [s in v] for a string [s]: a key of a dict, an element of a list, a
    substring of a string; the other values are no containers. *)
Definition contains (s : string) (v : json) : res bool :=
  match v with
  | JObj fields => inr (match assoc s fields with Some _ => true | None => false end)
  | JArr items => inr (existsb (is_str s) items)
  | JStr s' => inr (Text.contains s s')
  | _ => inl TypeError
  end.

(** What [for item in v] runs over. *)
Definition iter (v : json) : res (list json) :=
  match v with
  | JArr items => inr items
  | JObj fields => inr (map (fun kv => JStr (fst kv)) fields)
  | JStr s => inr (map JStr (Text.chars s))
  | _ => inl TypeError
  end.

(** Truth value of [if v:]. *)
Definition truthy (v : json) : bool :=
  match v with
  | JNull => false
  | JBool b => b
  | JInt n => negb (n =? 0)%Z
  | JFloat m _ => negb (m =? 0)%Z
  | JStr s => negb (String.eqb s "")
  | JArr items => negb (Nat.eqb (length items) 0)
  | JObj fields => negb (Nat.eqb (length fields) 0)
  end.

(** [''.join(parts)]: every part has to be a [str]. *)
Fixpoint join_empty (parts : list json) : res string :=
  match parts with
  | [] => inr ""
  | JStr s :: rest =>
      match join_empty rest with
      | inr t => inr (s +:+ t)
      | inl e => inl e
      end
  | _ :: _ => inl TypeError
  end.

End Py.
Import Py.

(* ===================================================================== *)
(** ** Effects: the trace, the chat history, the remote services *)
(* ===================================================================== *)

Inductive level : Type := INFO | WARNING | ERROR.

(** [logging.basicConfig(level=logging.INFO)]: a [logger.debug] record is
    below the configured level and is not emitted, so it has no event. *)

(** A request of [bedrock_runtime.invoke_model]; [body] is the dict that is
    serialised with [json.dumps]. *)
Record invoke_request : Type := {
  body : json;
  modelId : option string;
  accept : string;
  contentType : string
}.

(** A request of [bedrock_agent.retrieve_and_generate]. *)
Record rag_request : Type := {
  input : json;
  retrieveAndGenerateConfiguration : json
}.

Inductive event : Type :=
| Log (lv : level) (msg : string)
| LogTraceback (e : exn)                       (* logger.error(traceback.format_exc()) *)
| StTitle (text : string)
| StSubheader (text : string)
| StHeader (text : string)
| StWrite (label : string) (value : option string)
| StChatMessage (role : string)
| StSpinner (text : string)
| StMarkdown (text : string) (unsafe_allow_html : bool)
| StError (msg : string)
| Boto3Client (service_name : string)
| InvokeModel (req : invoke_request)
| RetrieveAndGenerate (req : rag_request).

(** An item of [st.session_state.chat_history]. *)
Record message : Type := {
  role : string;
  content : json
}.

(** What lies outside the script: the two remote services, the creation of
    their clients, and the interpreter's [str()] of an exception and of a
    value that is not a [str].  [W] is the state of that outside world.
    [invoke_model] answers with the decoded body of the response, that is
    [json.loads(response['body'].read())]; a body that does not decode is
    an exception of the call. *)
Record runtime (W : Type) : Type := {
  client : string -> W -> res unit * W;
  invoke_model : invoke_request -> W -> res json * W;
  retrieve_and_generate : rag_request -> W -> res json * W;
  str_exn : exn -> string;
  str_other : json -> string
}.
Arguments client {W}.
Arguments invoke_model {W}.
Arguments retrieve_and_generate {W}.
Arguments str_exn {W}.
Arguments str_other {W}.

(** The state one run of the script works on. *)
Record state (W : Type) : Type := {
  world : W;
  trace : list event;
  chat_history : list message;
  bedrock_runtime : bool;      (* is the global name bound? *)
  bedrock_agent : bool
}.
Arguments world {W}.
Arguments trace {W}.
Arguments chat_history {W}.
Arguments bedrock_runtime {W}.
Arguments bedrock_agent {W}.

(** A computation that may raise: the state changes made before the
    exception are kept. *)
Definition M (W A : Type) : Type := state W -> res A * state W.

Definition ret {W A : Type} (a : A) : M W A := fun st => (inr a, st).

Definition raise {W A : Type} (e : exn) : M W A := fun st => (inl e, st).

Definition bind {W A B : Type} (m : M W A) (k : A -> M W B) : M W B :=
  fun st =>
    match m st with
    | (inr a, st') => k a st'
    | (inl e, st') => (inl e, st')
    end.

(** [try: body except Exception as e: handler(e)]. *)
Definition try_except {W A : Type} (body : M W A) (handler : exn -> M W A) : M W A :=
  fun st =>
    match body st with
    | (inr a, st') => (inr a, st')
    | (inl e, st') => handler e st'
    end.

Declare Scope py_scope.
Delimit Scope py_scope with py.
Notation "x <- m ;; k" := (bind m (fun x => k))
  (at level 100, m at next level, right associativity) : py_scope.
Notation "m ;; k" := (bind m (fun _ => k))
  (at level 100, right associativity) : py_scope.
Open Scope py_scope.

Definition lift {W A : Type} (r : res A) : M W A := fun st => (r, st).

Definition emit {W : Type} (e : event) : M W unit :=
  fun st =>
    (inr tt, {| world := world st; trace := trace st ++ [e];
                chat_history := chat_history st;
                bedrock_runtime := bedrock_runtime st;
                bedrock_agent := bedrock_agent st |}).

Definition append_history {W : Type} (m : message) : M W unit :=
  fun st =>
    (inr tt, {| world := world st; trace := trace st;
                chat_history := chat_history st ++ [m];
                bedrock_runtime := bedrock_runtime st;
                bedrock_agent := bedrock_agent st |}).

Definition set_history {W : Type} (h : list message) : M W unit :=
  fun st =>
    (inr tt, {| world := world st; trace := trace st;
                chat_history := h;
                bedrock_runtime := bedrock_runtime st;
                bedrock_agent := bedrock_agent st |}).

(** A call of the outside world: the world moves on, the result comes back. *)
Definition call {W A : Type} (f : W -> res A * W) : M W A :=
  fun st =>
    let (r, w') := f (world st) in
    (r, {| world := w'; trace := trace st;
           chat_history := chat_history st;
           bedrock_runtime := bedrock_runtime st;
           bedrock_agent := bedrock_agent st |}).

Definition set_bedrock_runtime {W : Type} : M W unit :=
  fun st =>
    (inr tt, {| world := world st; trace := trace st;
                chat_history := chat_history st;
                bedrock_runtime := true;
                bedrock_agent := bedrock_agent st |}).

Definition set_bedrock_agent {W : Type} : M W unit :=
  fun st =>
    (inr tt, {| world := world st; trace := trace st;
                chat_history := chat_history st;
                bedrock_runtime := bedrock_runtime st;
                bedrock_agent := true |}).

(* ===================================================================== *)
(** ** The script *)
(* ===================================================================== *)

Section App.

Context {W : Type}.
Variable rt : runtime W.
Variable env : gmap string string.      (* os.environ after load_dotenv() *)

Definition getenv (name : string) : option string := env !! name.

(** [f"{os.getenv(name)}"]. *)
Definition fstr_opt (o : option string) : string :=
  match o with
  | Some s => s
  | None => "None"
  end.

(** [f"{v}"]. *)
Definition fstr (v : json) : string :=
  match v with
  | JStr s => s
  | _ => str_other rt v
  end.

Definition opt_json (o : option string) : json :=
  match o with
  | Some s => JStr s
  | None => JNull
  end.

(** *** Validation of the environment (lines 25-34) *)

Definition required_env_vars : list string :=
  ["AWS_REGION"; "AWS_ACCESS_KEY_ID"; "AWS_SECRET_ACCESS_KEY";
   "MODEL_ID"; "KNOWLEDGE_BASE_ID"; "PRODUCT_NAME"; "APP_TITLE"].

(** [not os.getenv(var)]. *)
Definition not_set (var : string) : bool :=
  match getenv var with
  | None => true
  | Some v => String.eqb v ""
  end.

Definition missing_vars : list string := List.filter not_set required_env_vars.

Definition missing_error_msg : string :=
  "Missing required environment variables: " +:+ Text.join ", " missing_vars.

Definition validate_env : M W unit :=
  match missing_vars with
  | [] => ret tt
  | _ :: _ =>
      emit (Log ERROR missing_error_msg) ;;
      raise (ValueError missing_error_msg)
  end.

(** *** The clients (lines 44-65) *)

Definition init_clients : M W unit :=
  try_except
    (emit (Boto3Client "bedrock-runtime") ;;
     call (client rt "bedrock-runtime") ;;
     set_bedrock_runtime ;;
     emit (Log INFO "Bedrock Runtime client initialized successfully") ;;
     emit (Boto3Client "bedrock-agent-runtime") ;;
     call (client rt "bedrock-agent-runtime") ;;
     set_bedrock_agent ;;
     emit (Log INFO "Bedrock Agent Runtime client initialized successfully"))
    (fun e =>
       let error_msg := "Failed to initialize Bedrock clients: " +:+ str_exn rt e in
       emit (Log ERROR error_msg) ;;
       emit (LogTraceback e) ;;
       emit (StError error_msg)).

(** [bedrock_runtime.invoke_model(...)] followed by
    [json.loads(response['body'].read())]. *)
Definition runtime_invoke_model (req : invoke_request) : M W json :=
  fun st =>
    if bedrock_runtime st
    then (emit (InvokeModel req) ;; call (invoke_model rt req)) st
    else (inl (NameError "bedrock_runtime"), st).

(** [bedrock_agent.retrieve_and_generate(...)]. *)
Definition agent_retrieve_and_generate (req : rag_request) : M W json :=
  fun st =>
    if bedrock_agent st
    then (emit (RetrieveAndGenerate req) ;; call (retrieve_and_generate rt req)) st
    else (inl (NameError "bedrock_agent"), st).

(** *** The request and the text of the response, as [classify_query] and
    [get_generic_response] both build and read them *)

Definition inf_params (max_new_tokens : Z) : json :=
  JObj [("max_new_tokens", JInt max_new_tokens);
        ("top_p", JFloat 9 (-1));
        ("top_k", JInt 20);
        ("temperature", JFloat 7 (-1))].

Definition request_body (system_text query : string) (max_new_tokens : Z) : json :=
  JObj [("schemaVersion", JStr "messages-v1");
        ("messages",
          JArr [JObj [("role", JStr "user");
                      ("content", JArr [JObj [("text", JStr query)]])]]);
        ("system", JArr [JObj [("text", JStr system_text)]]);
        ("inferenceConfig", inf_params max_new_tokens)].

Definition model_request (system_text query : string) (max_new_tokens : Z) : invoke_request :=
  {| body := request_body system_text query max_new_tokens;
     modelId := getenv "MODEL_ID";
     accept := "application/json";
     contentType := "application/json" |}.

(** [(item['text'] for item in content if 'text' in item)], run to its end. *)
Fixpoint text_items (items : list json) : res (list json) :=
  match items with
  | [] => inr []
  | item :: rest =>
      match Py.contains "text" item with
      | inl e => inl e
      | inr false => text_items rest
      | inr true =>
          match subscript item (KStr "text") with
          | inl e => inl e
          | inr x =>
              match text_items rest with
              | inl e => inl e
              | inr xs => inr (x :: xs)
              end
          end
      end
  end.

(** [content = response_body['output']['message']['content']] and
    [''.join(item['text'] for item in content if 'text' in item)]. *)
Definition response_text (response_body : json) : res string :=
  match path response_body [KStr "output"; KStr "message"; KStr "content"] with
  | inl e => inl e
  | inr content =>
      match iter content with
      | inl e => inl e
      | inr items =>
          match text_items items with
          | inl e => inl e
          | inr parts => join_empty parts
          end
      end
  end.

(** *** classify_query (lines 67-121) *)

Definition classify_system_text : string :=
  "Classify user input into:" +:+ Text.newline +:+
  Text.dquote +:+ "Product" +:+ Text.dquote +:+ " - for " +:+
  fstr_opt (getenv "PRODUCT_NAME") +:+ " specific queries" +:+ Text.newline +:+
  Text.dquote +:+ "Generic" +:+ Text.dquote +:+ " - for general questions." +:+ Text.newline +:+
  "Only respond with category." +:+ Text.newline +:+
  "Just Product or Generic, nothing more or less.".

(** [os.getenv('PRODUCT_NAME').lower() in result.lower()]; [None] has no
    attribute [lower]. *)
Definition names_product (result : string) : res bool :=
  match getenv "PRODUCT_NAME" with
  | Some name => inr (Text.contains (Text.lower name) (Text.lower result))
  | None => inl AttributeError
  end.

Definition classify_try (query : string) : M W string :=
  response_body <- runtime_invoke_model (model_request classify_system_text query 10) ;;
  result <- lift (response_text response_body) ;;
  product <- lift (names_product result) ;;
  let classification := if product : bool then "Product" else "Generic" in
  emit (Log INFO ("Query classified as: " +:+ classification)) ;;
  ret classification.

Definition classify_except (e : exn) : M W string :=
  let error_msg := "Classification error: " +:+ str_exn rt e in
  emit (Log ERROR error_msg) ;;
  emit (LogTraceback e) ;;
  emit (StError error_msg) ;;
  ret "Generic".

Definition classify_query (query : string) : M W string :=
  emit (Log INFO ("Classifying query: " +:+ query)) ;;
  try_except (classify_try query) classify_except.

(** *** get_kb_response (lines 123-168) *)

Definition kb_request (query : string) : rag_request :=
  {| input := JObj [("text", JStr query)];
     retrieveAndGenerateConfiguration :=
       JObj [("type", JStr "KNOWLEDGE_BASE");
             ("knowledgeBaseConfiguration",
               JObj [("knowledgeBaseId", opt_json (getenv "KNOWLEDGE_BASE_ID"));
                     ("modelArn",
                       JStr ("arn:aws:bedrock:" +:+ fstr_opt (getenv "AWS_REGION") +:+
                             "::foundation-model/" +:+ fstr_opt (getenv "MODEL_ID")))])] |}.

(** [len(kb_response['citations']) > 0 and
     len(kb_response['citations'][0]['retrievedReferences']) > 0]:
    the second operand is evaluated only when the first holds. *)
Definition has_reference (kb_response : json) : res bool :=
  match path kb_response [KStr "citations"] with
  | inl e => inl e
  | inr citations =>
      match len citations with
      | inl e => inl e
      | inr n =>
          if (n >? 0)%Z then
            match path kb_response [KStr "citations"; KInt 0; KStr "retrievedReferences"] with
            | inl e => inl e
            | inr refs =>
                match len refs with
                | inl e => inl e
                | inr m => inr (m >? 0)%Z
                end
            end
          else inr false
      end
  end.

Definition context_path : list key :=
  [KStr "citations"; KInt 0; KStr "retrievedReferences"; KInt 0;
   KStr "content"; KStr "text"].

Definition source_path : list key :=
  [KStr "citations"; KInt 0; KStr "retrievedReferences"; KInt 0;
   KStr "location"; KStr "s3Location"; KStr "uri"].

Definition context_markdown (context : json) : event :=
  StMarkdown ("<span style='color:#FFDA33'>Context: </span>" +:+ fstr context) true.

Definition source_markdown (source : json) : event :=
  StMarkdown ("<span style='color:#FFDA33'>Source: </span>" +:+ fstr source) true.

Definition no_context_markdown : event :=
  StMarkdown "<span style='color:red'>No specific context found</span>" true.

Definition kb_try (query : string) : M W json :=
  kb_response <- agent_retrieve_and_generate (kb_request query) ;;
  answer <- lift (path kb_response [KStr "output"; KStr "text"]) ;;
  emit (Log INFO "Successfully retrieved answer from knowledge base") ;;
  cited <- lift (has_reference kb_response) ;;
  (if cited : bool then
     context <- lift (path kb_response context_path) ;;
     source <- lift (path kb_response source_path) ;;
     emit (Log INFO ("Found context from source: " +:+ fstr source)) ;;
     emit (context_markdown context) ;;
     emit (source_markdown source)
   else
     emit (Log WARNING "No specific context found in knowledge base response") ;;
     emit no_context_markdown) ;;
  ret answer.

Definition kb_except (e : exn) : M W json :=
  let error_msg := "Knowledge base error: " +:+ str_exn rt e in
  emit (Log ERROR error_msg) ;;
  emit (LogTraceback e) ;;
  emit (StError error_msg) ;;
  ret (JStr "").

Definition get_kb_response (query : string) : M W json :=
  emit (Log INFO ("Getting knowledge base response for query: " +:+ query)) ;;
  try_except (kb_try query) kb_except.

(** *** get_generic_response (lines 170-217) *)

Definition generic_system_text : string :=
  "You are a helpful assistant. Please provide a clear, professional answer.".

Definition generic_try (query : string) : M W json :=
  response_body <- runtime_invoke_model (model_request generic_system_text query 500) ;;
  result <- lift (response_text response_body) ;;
  emit (Log INFO "Successfully generated generic response") ;;
  ret (JStr result).

Definition generic_except (e : exn) : M W json :=
  let error_msg := "Generic response error: " +:+ str_exn rt e in
  emit (Log ERROR error_msg) ;;
  emit (LogTraceback e) ;;
  emit (StError error_msg) ;;
  ret (JStr "").

Definition get_generic_response (query : string) : M W json :=
  emit (Log INFO ("Getting generic response for query: " +:+ query)) ;;
  try_except (generic_try query) generic_except.

(** *** The chat handler (lines 219-247) *)

Definition answer_path (category query : string) : M W json :=
  if String.eqb category "Product" then
    emit (Log INFO "Processing product-specific query") ;;
    get_kb_response query
  else
    emit (Log INFO "Processing generic query") ;;
    get_generic_response query.

Definition show_response (response : json) : M W unit :=
  if truthy response then
    emit (StMarkdown (fstr response) false) ;;
    append_history {| role := "assistant"; content := response |} ;;
    emit (Log INFO "Assistant response added to chat history")
  else
    emit (Log WARNING "No response generated").

(** Lines 220-228: the query is logged, shown and stored. *)
Definition open_turn (query : string) : M W unit :=
  emit (Log INFO ("New query received: " +:+ query)) ;;
  emit (StChatMessage "user") ;;
  emit (StMarkdown query false) ;;
  append_history {| role := "user"; content := JStr query |} ;;
  emit (StChatMessage "assistant") ;;
  emit (StSpinner "Processing...").

(** Lines 230-233: the classification is stored as a system message. *)
Definition record_category (category : string) : M W unit :=
  append_history {| role := "system";
                    content := JStr ("Classified as: " +:+ category) |} ;;
  emit (Log INFO ("Query classification added to chat history: " +:+ category)).

Definition chat_turn (query : string) : M W unit :=
  open_turn query ;;
  category <- classify_query query ;;
  record_category category ;;
  response <- answer_path category query ;;
  show_response response.

(** *** The sidebar (lines 249-258) and the whole run *)

Inductive outcome : Type := Finished | Rerun.

Definition sidebar (clear_chat : bool) : M W outcome :=
  emit (StHeader "Configuration") ;;
  emit (StWrite "Region:" (getenv "AWS_REGION")) ;;
  emit (StWrite "Model:" (getenv "MODEL_ID")) ;;
  emit (StWrite "Product:" (getenv "PRODUCT_NAME")) ;;
  if clear_chat then
    emit (Log INFO "Clearing chat history") ;;
    set_history [] ;;
    ret Rerun
  else ret Finished.

(** One run of the script.  [session] is the chat history the session
    holds ([None]: the key is not there yet), [chat_input] what
    [st.chat_input] returns, [clear_chat] what [st.button("Clear Chat")]
    returns. *)
Definition script_body (session : option (list message))
    (chat_input : option string) (clear_chat : bool) : M W outcome :=
  emit (Log INFO "Environment variables loaded") ;;
  validate_env ;;
  emit (StTitle (fstr_opt (getenv "APP_TITLE"))) ;;
  emit (StSubheader "Chat Interface") ;;
  (match session with
   | None => emit (Log INFO "Chat history initialized")
   | Some _ => ret tt
   end) ;;
  init_clients ;;
  (match chat_input with
   | Some query => if String.eqb query "" then ret tt else chat_turn query
   | None => ret tt
   end) ;;
  sidebar clear_chat.

Definition initial_state (session : option (list message)) (w : W) : state W :=
  {| world := w; trace := [];
     chat_history := match session with Some h => h | None => [] end;
     bedrock_runtime := false; bedrock_agent := false |}.

Definition script (session : option (list message))
    (chat_input : option string) (clear_chat : bool) (w : W)
    : res outcome * state W :=
  script_body session chat_input clear_chat (initial_state session w).

End App.

(* ===================================================================== *)
(** ** Fixtures: scripted services and a complete environment *)
(* ===================================================================== *)

Module Scenario.

(** A response body of the text model whose only fragment holds [s]. *)
Definition text_reply (s : string) : json :=
  JObj [("output",
    JObj [("message", JObj [("content", JArr [JObj [("text", JStr s)]])])])].

(** The knowledge-base response of the end-to-end scenario. *)
Definition kb_reply : json :=
  JObj [("output", JObj [("text", JStr "Hold power for 10s.")]);
        ("citations",
          JArr [JObj [("retrievedReferences",
            JArr [JObj [("content", JObj [("text", JStr "Reset instructions...")]);
                        ("location",
                          JObj [("s3Location",
                            JObj [("uri", JStr "s3://docs/reset.txt")])])]])]])].

(** Services that answer every call the same way; the world counts the
    calls made. *)
Definition scripted (model : res json) (kb : res json) : runtime nat :=
  {| client := fun _ w => (inr tt, w);
     invoke_model := fun _ w => (model, S w);
     retrieve_and_generate := fun _ w => (kb, S w);
     str_exn := fun _ => "<exception>";
     str_other := fun _ => "<value>" |}.

Definition environment (product_name : string) : gmap string string :=
  list_to_map
    [("AWS_REGION", "us-east-1"); ("AWS_ACCESS_KEY_ID", "AKIAEXAMPLE");
     ("AWS_SECRET_ACCESS_KEY", "secret"); ("MODEL_ID", "amazon.nova-lite-v1:0");
     ("KNOWLEDGE_BASE_ID", "KB12345"); ("PRODUCT_NAME", product_name);
     ("APP_TITLE", "Documentation Assistant")].

(** The state after a start-up that bound both clients. *)
Definition ready : state nat :=
  {| world := 0; trace := []; chat_history := [];
     bedrock_runtime := true; bedrock_agent := true |}.

Definition transport_error : exn := Raised "EndpointConnectionError" "could not connect".

(** The services of the end-to-end scenario: the text model answers with
    the word [Product], the knowledge base with [kb_reply]. *)
Definition mocked : runtime nat := scripted (inr (text_reply "Product")) (inr kb_reply).

(** The text model cannot be reached. *)
Definition model_down : runtime nat := scripted (inl transport_error) (inr kb_reply).

(** The text model names the product, the knowledge base cannot be reached. *)
Definition kb_down : runtime nat :=
  scripted (inr (text_reply "WidgetPro")) (inl transport_error).

(** The text model names the product, the knowledge base answers. *)
Definition naming : runtime nat :=
  scripted (inr (text_reply "WidgetPro")) (inr kb_reply).

Definition widgetpro : gmap string string := environment "WidgetPro".
Definition acme : gmap string string := environment "Acme".

(** A response body with two text fragments around one without text. *)
Definition mixed_fragments : list (list (string * json)) :=
  [[("text", JStr "Hold ")]; [("image", JNull)];
   [("text", JStr "power"); ("index", JInt 2)]].

Definition mixed_reply : json :=
  JObj [("output",
    JObj [("message", JObj [("content", JArr (map JObj mixed_fragments))])])].

(** Services whose clients cannot be created. *)
Definition no_clients : runtime nat :=
  {| client := fun _ w => (inl transport_error, S w);
     invoke_model := fun _ w => (inr (text_reply "WidgetPro"), S w);
     retrieve_and_generate := fun _ w => (inr kb_reply, S w);
     str_exn := fun _ => "<exception>";
     str_other := fun _ => "<value>" |}.

(** The knowledge base answers with a reference that has no S3 location. *)
Definition web_reply : json :=
  JObj [("output", JObj [("text", JStr "Hold power for 10s.")]);
        ("citations",
          JArr [JObj [("retrievedReferences",
            JArr [JObj [("content", JObj [("text", JStr "Reset instructions...")]);
                        ("location",
                          JObj [("type", JStr "WEB");
                                ("webLocation",
                                  JObj [("url", JStr "https://docs/reset")])])]])]])].

Definition web_cited : runtime nat :=
  scripted (inr (text_reply "WidgetPro")) (inr web_reply).

Definition reset_query : string := "How do I reset my device?".
Definition weather_query : string := "What's the weather today?".

End Scenario.

(* ===================================================================== *)
(** ** What the statements below observe *)
(* ===================================================================== *)

(** The first thing [get_kb_response] and [get_generic_response] do is to
    log their call; an invocation is read off the trace from that record. *)
Definition kb_invoked (e : event) : bool :=
  match e with
  | Log INFO msg => Text.starts_with "Getting knowledge base response for query: " msg
  | _ => false
  end.

Definition generic_invoked (e : event) : bool :=
  match e with
  | Log INFO msg => Text.starts_with "Getting generic response for query: " msg
  | _ => false
  end.

Definition kb_call (e : event) : bool :=
  match e with
  | RetrieveAndGenerate _ => true
  | _ => false
  end.

Definition count (f : event -> bool) (evs : list event) : nat :=
  length (List.filter f evs).

(** An event that is no invocation of an answer path. *)
Definition quiet (e : event) : Prop :=
  kb_invoked e = false /\ generic_invoked e = false.

(** The state with more events on its trace. *)
Definition logged {W : Type} (evs : list event) (st : state W) : state W :=
  {| world := world st; trace := trace st ++ evs;
     chat_history := chat_history st;
     bedrock_runtime := bedrock_runtime st;
     bedrock_agent := bedrock_agent st |}.

(** A computation that leaves the chat history alone and adds only quiet
    events to the trace, whether it returns or raises. *)
Definition frames {W A : Type} (m : M W A) : Prop :=
  forall st, exists evs,
    trace (snd (m st)) = trace st ++ evs
    /\ Forall quiet evs
    /\ chat_history (snd (m st)) = chat_history st.

(** A computation that never raises. *)
Definition returns {W A : Type} (m : M W A) : Prop :=
  forall st, exists a, fst (m st) = inr a.

(** The text of a content fragment, when the fragment has a ['text'] field
    that is a string. *)
Definition fragment_text (fragment : list (string * json)) : option string :=
  match assoc "text" fragment with
  | Some (JStr s) => Some s
  | _ => None
  end.

(** The concatenation, in order, of the texts of the fragments that have
    one; a fragment without a ['text'] field adds nothing. *)
Fixpoint concat_fragment_texts (fragments : list (list (string * json))) : string :=
  match fragments with
  | [] => ""
  | fragment :: rest =>
      match fragment_text fragment with
      | Some s => s +:+ concat_fragment_texts rest
      | None => concat_fragment_texts rest
      end
  end.

(** Text in which every character is an ASCII character; on such text
    [Text.lower] is [str.lower]. *)
Fixpoint ascii_text (s : string) : bool :=
  match s with
  | EmptyString => true
  | String c s' => (nat_of_ascii c <? 128)%nat && ascii_text s'
  end.

(** A call of one of the two remote services. *)
Definition remote_call (e : event) : bool :=
  match e with
  | InvokeModel _ | RetrieveAndGenerate _ => true
  | _ => false
  end.

(** What [st.error] and [st.markdown] put on the page. *)
Definition shown_error (e : event) : bool :=
  match e with
  | StError _ => true
  | _ => false
  end.

Definition shown_markdown (e : event) : bool :=
  match e with
  | StMarkdown _ _ => true
  | _ => false
  end.

(** A computation that calls no remote service and leaves the outside
    world and the bindings of the two clients as they are. *)
Definition silent {W A : Type} (m : M W A) : Prop :=
  forall st, exists evs,
    trace (snd (m st)) = trace st ++ evs
    /\ List.filter remote_call evs = []
    /\ world (snd (m st)) = world st
    /\ bedrock_runtime (snd (m st)) = bedrock_runtime st
    /\ bedrock_agent (snd (m st)) = bedrock_agent st.

(* ===================================================================== *)
(** ** Facts about text *)
(* ===================================================================== *)

Lemma append_cons (x : ascii) (a b : string) :
  String x a +:+ b = String x (a +:+ b).
Proof. reflexivity. Qed.

Lemma append_assoc (a b c : string) : (a +:+ b) +:+ c = a +:+ (b +:+ c).
Proof.
  induction a as [|x a IH]; [reflexivity |].
  rewrite !append_cons. now f_equal.
Qed.

Lemma append_empty_r (a : string) : a +:+ "" = a.
Proof.
  induction a as [|x a IH]; [reflexivity |].
  rewrite append_cons. now f_equal.
Qed.

Lemma starts_with_prefix (p s : string) :
  Text.starts_with p s = true <-> exists b, s = p +:+ b.
Proof.
  revert s. induction p as [|a p IH]; intros s; simpl.
  - split; [intros _; now exists s | reflexivity].
  - destruct s as [|b s].
    + split; [discriminate | intros [t Ht]; rewrite append_cons in Ht; discriminate].
    + destruct (Ascii.eqb_spec a b) as [->|Hne].
      * rewrite IH. split; intros [t Ht]; exists t.
        -- rewrite append_cons. congruence.
        -- rewrite append_cons in Ht. congruence.
      * split; [discriminate | intros [t Ht]; rewrite append_cons in Ht; congruence].
Qed.

(** [Text.contains] is substring containment. *)
Lemma contains_substring (needle hay : string) :
  Text.contains needle hay = true <-> exists a b, hay = a +:+ needle +:+ b.
Proof.
  induction hay as [|c hay IH]; simpl.
  - destruct (Text.starts_with needle "") eqn:E.
    + split; [intros _ | reflexivity].
      apply starts_with_prefix in E as [b Hb]. now exists "", b.
    + split; [discriminate | intros (a & b & H)].
      destruct a; [|rewrite append_cons in H; discriminate].
      assert (Text.starts_with needle "" = true) by (apply starts_with_prefix; eauto).
      congruence.
  - destruct (Text.starts_with needle (String c hay)) eqn:E.
    + split; [intros _ | reflexivity].
      apply starts_with_prefix in E as [b Hb]. now exists "", b.
    + rewrite IH. split.
      * intros (a & b & ->). now exists (String c a), b.
      * intros (a & b & H). destruct a as [|x a].
        -- assert (Text.starts_with needle (String c hay) = true)
             by (apply starts_with_prefix; eauto).
           congruence.
        -- rewrite append_cons in H. injection H as _ ->. eauto.
Qed.

Lemma contains_append_r (v p s : string) :
  Text.contains v s = true -> Text.contains v (p +:+ s) = true.
Proof.
  rewrite !contains_substring. intros (a & b & ->).
  exists (p +:+ a), b. now rewrite append_assoc.
Qed.

Lemma contains_join (sep v : string) (l : list string) :
  In v l -> Text.contains v (Text.join sep l) = true.
Proof.
  induction l as [|p rest IH]; [intros [] |].
  intros [-> | Hin].
  - apply contains_substring. destruct rest as [|q rest'].
    + exists "", "". simpl. now rewrite append_empty_r.
    + exists "", (sep +:+ Text.join sep (q :: rest')). reflexivity.
  - destruct rest as [|q rest']; [destruct Hin |].
    change (Text.join sep (p :: q :: rest'))
      with (p +:+ sep +:+ Text.join sep (q :: rest')).
    apply contains_append_r, contains_append_r, IH, Hin.
Qed.

(* ===================================================================== *)
(** ** Start-up validation *)
(* ===================================================================== *)

Section Startup.

Context {W : Type}.
Variable rt : runtime W.

Lemma missing_vars_spec (env : gmap string string) (v : string) :
  In v (missing_vars env) <->
  In v required_env_vars /\ (env !! v = None \/ env !! v = Some "").
Proof.
  unfold missing_vars. rewrite filter_In. unfold not_set, getenv.
  destruct (env !! v) as [s|].
  - rewrite String.eqb_eq. split; intros [H1 H2]; split; auto.
    + right. congruence.
    + destruct H2 as [H2|H2]; congruence.
  - split; intros [H1 H2]; auto.
Qed.

Lemma script_stops_at_validation (env : gmap string string)
    (session : option (list message)) (chat_input : option string)
    (clear_chat : bool) (w : W) :
  missing_vars env <> [] ->
  script rt env session chat_input clear_chat w =
  (inl (ValueError (missing_error_msg env)),
   {| world := w;
      trace := [Log INFO "Environment variables loaded";
                Log ERROR (missing_error_msg env)];
      chat_history := match session with Some h => h | None => [] end;
      bedrock_runtime := false; bedrock_agent := false |}).
Proof.
  intros Hne. unfold script, script_body, validate_env.
  destruct (missing_vars env) as [|m ms] eqn:E; [congruence |].
  reflexivity.
Qed.

Lemma missing_vars_delete_empty (env : gmap string string) (v : string) :
  env !! v = Some "" -> missing_vars (delete v env) = missing_vars env.
Proof.
  intros Hv. unfold missing_vars. apply filter_ext_in. intros u _.
  unfold not_set, getenv. destruct (decide (v = u)) as [<-|Hne].
  - now rewrite lookup_delete_eq, Hv.
  - now rewrite lookup_delete_ne.
Qed.

(** C8: when a required variable is absent, the run ends in a [ValueError]
    right after the validation: the trace holds the two log records only,
    the outside world has not been called and the chat history is as the
    session had it, whatever the chat input.  The one message lists, after
    its fixed prefix, every required variable that is not set, joined by a
    comma and a space, so each of them occurs in it by name. *)
Theorem missing_config_is_fatal (env : gmap string string)
    (session : option (list message)) (chat_input : option string)
    (clear_chat : bool) (w : W) (v : string) :
  In v required_env_vars ->
  env !! v = None ->
  exists st',
    script rt env session chat_input clear_chat w =
      (inl (ValueError (missing_error_msg env)), st')
    /\ trace st' = [Log INFO "Environment variables loaded";
                    Log ERROR (missing_error_msg env)]
    /\ world st' = w
    /\ chat_history st' = match session with Some h => h | None => [] end
    /\ missing_error_msg env =
         "Missing required environment variables: " +:+
         Text.join ", " (List.filter (not_set env) required_env_vars)
    /\ (forall u, In u required_env_vars -> env !! u = None ->
          In u (missing_vars env) /\
          Text.contains u (missing_error_msg env) = true).
Proof.
  intros Hreq Hv.
  assert (Hin : In v (missing_vars env)) by (apply missing_vars_spec; auto).
  assert (Hne : missing_vars env <> []) by (intros E; rewrite E in Hin; destruct Hin).
  eexists. split; [apply script_stops_at_validation, Hne |].
  cbn [trace world chat_history]. repeat split; try reflexivity.
  - apply missing_vars_spec; auto.
  - unfold missing_error_msg. apply contains_append_r, contains_join.
    apply missing_vars_spec; auto.
Qed.

(** C10: a required variable whose value is the empty string is listed
    among the missing ones, the run ends in the same [ValueError], and the
    whole run is the one of the environment without the variable. *)
Theorem empty_value_counts_as_missing (env : gmap string string)
    (session : option (list message)) (chat_input : option string)
    (clear_chat : bool) (w : W) (v : string) :
  In v required_env_vars ->
  env !! v = Some "" ->
  In v (missing_vars env)
  /\ missing_vars env = missing_vars (delete v env)
  /\ fst (script rt env session chat_input clear_chat w) =
       inl (ValueError (missing_error_msg env))
  /\ Text.contains v (missing_error_msg env) = true
  /\ script rt env session chat_input clear_chat w =
       script rt (delete v env) session chat_input clear_chat w.
Proof.
  intros Hreq Hv.
  assert (Hin : In v (missing_vars env)) by (apply missing_vars_spec; auto).
  assert (Hne : missing_vars env <> []) by (intros E; rewrite E in Hin; destruct Hin).
  assert (Hdel : missing_vars (delete v env) = missing_vars env)
    by now apply missing_vars_delete_empty.
  split; [exact Hin |]. split; [now rewrite Hdel |].
  split; [now rewrite script_stops_at_validation |].
  split; [unfold missing_error_msg; now apply contains_append_r, contains_join |].
  rewrite !script_stops_at_validation by (now rewrite ?Hdel).
  unfold missing_error_msg. now rewrite Hdel.
Qed.

End Startup.

Lemma missing_config_is_fatal_witness :
  In "MODEL_ID" required_env_vars
  /\ delete "APP_TITLE" (delete "MODEL_ID" Scenario.acme) !! "MODEL_ID" = None
  /\ fst (script Scenario.mocked
            (delete "APP_TITLE" (delete "MODEL_ID" Scenario.acme))
            None (Some Scenario.reset_query) false 0)
     = inl (ValueError "Missing required environment variables: MODEL_ID, APP_TITLE").
Proof.
  assert (H1 : In "MODEL_ID" required_env_vars) by (vm_compute; tauto).
  assert (H2 : delete "APP_TITLE" (delete "MODEL_ID" Scenario.acme) !! "MODEL_ID" = None)
    by (vm_compute; reflexivity).
  split; [exact H1 |]. split; [exact H2 |].
  destruct (missing_config_is_fatal Scenario.mocked
              (delete "APP_TITLE" (delete "MODEL_ID" Scenario.acme))
              None (Some Scenario.reset_query) false 0 "MODEL_ID" H1 H2)
    as (st' & -> & _).
  vm_compute. reflexivity.
Defined.

Lemma empty_value_counts_as_missing_witness :
  In "APP_TITLE" required_env_vars
  /\ <["APP_TITLE" := ""]> (Scenario.environment "Acme") !! "APP_TITLE" = Some ""
  /\ missing_vars (<["APP_TITLE" := ""]> (Scenario.environment "Acme")) = ["APP_TITLE"]
  /\ In "APP_TITLE" (missing_vars (<["APP_TITLE" := ""]> (Scenario.environment "Acme"))).
Proof.
  assert (H1 : In "APP_TITLE" required_env_vars) by (vm_compute; tauto).
  assert (H2 : <["APP_TITLE" := ""]> (Scenario.environment "Acme") !! "APP_TITLE" = Some "")
    by (vm_compute; reflexivity).
  split; [exact H1 |]. split; [exact H2 |].
  split; [vm_compute; reflexivity |].
  exact (proj1 (empty_value_counts_as_missing
                  (Scenario.scripted (inl Scenario.transport_error)
                                     (inl Scenario.transport_error))
                  (<["APP_TITLE" := ""]> (Scenario.environment "Acme"))
                  None None false 0 "APP_TITLE" H1 H2)).
Defined.

(* ===================================================================== *)
(** ** Running computations *)
(* ===================================================================== *)

Section Run.

Context {W : Type}.

Lemma run_bind {A B : Type} (m : M W A) (k : A -> M W B) st a st' :
  m st = (inr a, st') -> bind m k st = k a st'.
Proof. intros H. unfold bind. now rewrite H. Qed.

Lemma run_bind_raise {A B : Type} (m : M W A) (k : A -> M W B) st e st' :
  m st = (inl e, st') -> bind m k st = (inl e, st').
Proof. intros H. unfold bind. now rewrite H. Qed.

Lemma run_try {A : Type} (body : M W A) (handler : exn -> M W A) st a st' :
  body st = (inr a, st') -> try_except body handler st = (inr a, st').
Proof. intros H. unfold try_except. now rewrite H. Qed.

Lemma run_try_raise {A : Type} (body : M W A) (handler : exn -> M W A) st e st' :
  body st = (inl e, st') -> try_except body handler st = handler e st'.
Proof. intros H. unfold try_except. now rewrite H. Qed.

Lemma bind_returned {A B : Type} (m : M W A) (k : A -> M W B) st b st' :
  bind m k st = (inr b, st') ->
  exists a st1, m st = (inr a, st1) /\ k a st1 = (inr b, st').
Proof.
  unfold bind. destruct (m st) as [[e|a] st1]; [discriminate |]. eauto.
Qed.

Lemma logged_logged (evs1 evs2 : list event) (st : state W) :
  logged evs2 (logged evs1 st) = logged (evs1 ++ evs2) st.
Proof. unfold logged. simpl. now rewrite app_assoc. Qed.

(** *** Frames *)

Lemma frames_ret {A : Type} (a : A) : frames (W := W) (ret a).
Proof. intros st. exists []. simpl. now rewrite app_nil_r. Qed.

Lemma frames_raise {A : Type} (e : exn) : frames (W := W) (A := A) (raise e).
Proof. intros st. exists []. simpl. now rewrite app_nil_r. Qed.

Lemma frames_lift {A : Type} (r : res A) : frames (W := W) (lift r).
Proof. intros st. exists []. simpl. now rewrite app_nil_r. Qed.

Lemma frames_call {A : Type} (f : W -> res A * W) : frames (call f).
Proof.
  intros st. exists []. unfold call. destruct (f (world st)). simpl.
  now rewrite app_nil_r.
Qed.

Lemma frames_emit (e : event) : quiet e -> frames (W := W) (emit e).
Proof. intros He st. exists [e]. simpl. auto. Qed.

Lemma frames_bind {A B : Type} (m : M W A) (k : A -> M W B) :
  frames m -> (forall a, frames (k a)) -> frames (bind m k).
Proof.
  intros Hm Hk st. destruct (Hm st) as (evs1 & Ht & Hq & Hh).
  unfold bind. destruct (m st) as [[e|a] st1]; simpl in *.
  - exists evs1. auto.
  - destruct (Hk a st1) as (evs2 & Ht2 & Hq2 & Hh2).
    exists (evs1 ++ evs2). rewrite Ht2, Hh2, Ht, Hh, app_assoc.
    split; [reflexivity |]. split; [|reflexivity].
    apply Forall_app. auto.
Qed.

Lemma frames_try_except {A : Type} (body : M W A) (handler : exn -> M W A) :
  frames body -> (forall e, frames (handler e)) -> frames (try_except body handler).
Proof.
  intros Hm Hk st. destruct (Hm st) as (evs1 & Ht & Hq & Hh).
  unfold try_except. destruct (body st) as [[e|a] st1]; simpl in *.
  - destruct (Hk e st1) as (evs2 & Ht2 & Hq2 & Hh2).
    exists (evs1 ++ evs2). rewrite Ht2, Hh2, Ht, Hh, app_assoc.
    split; [reflexivity |]. split; [|reflexivity].
    apply Forall_app. auto.
  - exists evs1. auto.
Qed.

(** *** Computations that return *)

Lemma returns_ret {A : Type} (a : A) : returns (W := W) (ret a).
Proof. intros st. now exists a. Qed.

Lemma returns_emit (e : event) : returns (W := W) (emit e).
Proof. intros st. now exists tt. Qed.

Lemma returns_bind {A B : Type} (m : M W A) (k : A -> M W B) :
  returns m -> (forall a, returns (k a)) -> returns (bind m k).
Proof.
  intros Hm Hk st. destruct (Hm st) as (a & Ha).
  unfold bind. destruct (m st) as [[e|a'] st1]; simpl in Ha; [discriminate |].
  apply Hk.
Qed.

Lemma returns_try_except {A : Type} (body : M W A) (handler : exn -> M W A) :
  (forall e, returns (handler e)) -> returns (try_except body handler).
Proof.
  intros Hk st. unfold try_except. destruct (body st) as [[e|a] st1].
  - apply Hk.
  - now exists a.
Qed.

Lemma returns_run {A : Type} (m : M W A) (st : state W) :
  returns m -> exists a st', m st = (inr a, st').
Proof.
  intros H. destruct (H st) as (a & Ha). exists a, (snd (m st)).
  destruct (m st) as [r st']; simpl in *. now rewrite Ha.
Qed.

(** *** Counting over a trace *)

Lemma count_app (f : event -> bool) (l1 l2 : list event) :
  count f (l1 ++ l2) = count f l1 + count f l2.
Proof. unfold count. now rewrite List.filter_app, length_app. Qed.

Lemma count_quiet_kb (evs : list event) :
  Forall quiet evs -> count kb_invoked evs = 0.
Proof.
  induction 1 as [|e evs [He _] _ IH]; [reflexivity |].
  unfold count in *. simpl. now rewrite He.
Qed.

Lemma count_quiet_generic (evs : list event) :
  Forall quiet evs -> count generic_invoked evs = 0.
Proof.
  induction 1 as [|e evs [_ He] _ IH]; [reflexivity |].
  unfold count in *. simpl. now rewrite He.
Qed.

End Run.

(* ===================================================================== *)
(** ** The three functions: what they add to the trace, that they return *)
(* ===================================================================== *)

Ltac frames_auto :=
  repeat first
    [ apply frames_ret
    | apply frames_raise
    | apply frames_lift
    | apply frames_call
    | apply frames_emit; split; reflexivity
    | apply frames_bind; [| intros ?]
    | apply frames_try_except; [| intros ?]
    | match goal with |- frames (if ?b then _ else _) => destruct b end ].

Section Pipeline.

Context {W : Type}.
Variable rt : runtime W.
Variable env : gmap string string.

Lemma run_emit (e : event) (st : state W) : emit e st = (inr tt, logged [e] st).
Proof. reflexivity. Qed.

Lemma frames_runtime_invoke_model (req : invoke_request) :
  frames (runtime_invoke_model rt req).
Proof.
  intros st. unfold runtime_invoke_model. destruct (bedrock_runtime st).
  - revert st. change (frames (emit (InvokeModel req) ;; call (invoke_model rt req))).
    frames_auto.
  - exists []. simpl. now rewrite app_nil_r.
Qed.

Lemma frames_agent_retrieve_and_generate (req : rag_request) :
  frames (agent_retrieve_and_generate rt req).
Proof.
  intros st. unfold agent_retrieve_and_generate. destruct (bedrock_agent st).
  - revert st.
    change (frames (emit (RetrieveAndGenerate req) ;; call (retrieve_and_generate rt req))).
    frames_auto.
  - exists []. simpl. now rewrite app_nil_r.
Qed.

Lemma frames_classify_try (query : string) : frames (classify_try rt env query).
Proof.
  unfold classify_try.
  apply frames_bind; [apply frames_runtime_invoke_model | intros ?].
  frames_auto.
Qed.

Lemma frames_classify_except (e : exn) : frames (W := W) (classify_except rt e).
Proof. unfold classify_except. frames_auto. Qed.

Lemma frames_classify_query (query : string) : frames (classify_query rt env query).
Proof.
  unfold classify_query. apply frames_bind; [frames_auto | intros _].
  apply frames_try_except;
    [apply frames_classify_try | apply frames_classify_except].
Qed.

Lemma frames_kb_try (query : string) : frames (kb_try rt env query).
Proof.
  unfold kb_try.
  apply frames_bind; [apply frames_agent_retrieve_and_generate | intros ?].
  unfold context_markdown, source_markdown, no_context_markdown.
  frames_auto.
Qed.

Lemma frames_kb_except (e : exn) : frames (W := W) (kb_except rt e).
Proof. unfold kb_except. frames_auto. Qed.

Lemma frames_generic_try (query : string) : frames (generic_try rt env query).
Proof.
  unfold generic_try.
  apply frames_bind; [apply frames_runtime_invoke_model | intros ?].
  frames_auto.
Qed.

Lemma frames_generic_except (e : exn) : frames (W := W) (generic_except rt e).
Proof. unfold generic_except. frames_auto. Qed.

Lemma returns_classify_except (e : exn) : returns (W := W) (classify_except rt e).
Proof.
  unfold classify_except.
  repeat (apply returns_bind; [apply returns_emit | intros _]). apply returns_ret.
Qed.

Lemma returns_kb_except (e : exn) : returns (W := W) (kb_except rt e).
Proof.
  unfold kb_except.
  repeat (apply returns_bind; [apply returns_emit | intros _]). apply returns_ret.
Qed.

Lemma returns_generic_except (e : exn) : returns (W := W) (generic_except rt e).
Proof.
  unfold generic_except.
  repeat (apply returns_bind; [apply returns_emit | intros _]). apply returns_ret.
Qed.

(** No exception leaves one of the three functions. *)
Lemma returns_classify_query (query : string) : returns (classify_query rt env query).
Proof.
  unfold classify_query. apply returns_bind; [apply returns_emit | intros _].
  apply returns_try_except, returns_classify_except.
Qed.

Lemma returns_get_kb_response (query : string) : returns (get_kb_response rt env query).
Proof.
  unfold get_kb_response. apply returns_bind; [apply returns_emit | intros _].
  apply returns_try_except, returns_kb_except.
Qed.

Lemma returns_get_generic_response (query : string) :
  returns (get_generic_response rt env query).
Proof.
  unfold get_generic_response. apply returns_bind; [apply returns_emit | intros _].
  apply returns_try_except, returns_generic_except.
Qed.

(** [classify_query] answers with one of the two labels. *)
Lemma classify_try_label (query : string) (st : state W) (c : string) (st' : state W) :
  classify_try rt env query st = (inr c, st') -> c = "Product" \/ c = "Generic".
Proof.
  unfold classify_try. intros H.
  apply bind_returned in H as (body & st1 & _ & H).
  apply bind_returned in H as (text & st2 & _ & H).
  apply bind_returned in H as (product & st3 & _ & H).
  apply bind_returned in H as (u & st4 & _ & H).
  injection H as <- _. destruct product; auto.
Qed.

Lemma classify_query_label (query : string) (st : state W) (c : string) (st' : state W) :
  classify_query rt env query st = (inr c, st') -> c = "Product" \/ c = "Generic".
Proof.
  unfold classify_query. rewrite (run_bind _ _ _ _ _ (run_emit _ st)).
  unfold try_except.
  destruct (classify_try rt env query (logged _ st)) as [[e|c'] st1] eqn:E.
  - intros H. right. unfold classify_except in H.
    repeat (rewrite (run_bind _ _ _ _ _ (run_emit _ _)) in H).
    now injection H as <- _.
  - intros H. injection H as <- _. eapply classify_try_label, E.
Qed.

Lemma get_kb_response_run (query : string) (st : state W) :
  exists r evs st',
    get_kb_response rt env query st = (inr r, st')
    /\ trace st' =
         trace st ++
         Log INFO ("Getting knowledge base response for query: " +:+ query) :: evs
    /\ Forall quiet evs
    /\ chat_history st' = chat_history st.
Proof.
  unfold get_kb_response. rewrite (run_bind _ _ _ _ _ (run_emit _ st)).
  set (m := try_except (kb_try rt env query) (kb_except rt)).
  set (st0 := logged _ st).
  destruct (returns_run m st0) as (r & st' & Hr);
    [apply returns_try_except, returns_kb_except |].
  destruct (frames_try_except _ _ (frames_kb_try query) (frames_kb_except) st0)
    as (evs & Ht & Hq & Hh).
  fold m in Ht, Hh. rewrite Hr in Ht, Hh. simpl in Ht, Hh.
  exists r, evs, st'. rewrite Ht, Hh, <- app_assoc. auto.
Qed.

Lemma get_generic_response_run (query : string) (st : state W) :
  exists r evs st',
    get_generic_response rt env query st = (inr r, st')
    /\ trace st' =
         trace st ++
         Log INFO ("Getting generic response for query: " +:+ query) :: evs
    /\ Forall quiet evs
    /\ chat_history st' = chat_history st.
Proof.
  unfold get_generic_response. rewrite (run_bind _ _ _ _ _ (run_emit _ st)).
  set (m := try_except (generic_try rt env query) (generic_except rt)).
  set (st0 := logged _ st).
  destruct (returns_run m st0) as (r & st' & Hr);
    [apply returns_try_except, returns_generic_except |].
  destruct (frames_try_except _ _ (frames_generic_try query) (frames_generic_except) st0)
    as (evs & Ht & Hq & Hh).
  fold m in Ht, Hh. rewrite Hr in Ht, Hh. simpl in Ht, Hh.
  exists r, evs, st'. rewrite Ht, Hh, <- app_assoc. auto.
Qed.

(** The dispatch invokes one path: which one is decided by the label. *)
Lemma answer_path_run (category query : string) (st : state W) :
  exists r evs st',
    answer_path rt env category query st = (inr r, st')
    /\ trace st' = trace st ++ evs
    /\ count kb_invoked evs = (if String.eqb category "Product" then 1 else 0)
    /\ count generic_invoked evs = (if String.eqb category "Product" then 0 else 1)
    /\ chat_history st' = chat_history st.
Proof.
  unfold answer_path. destruct (String.eqb category "Product").
  - rewrite (run_bind _ _ _ _ _ (run_emit _ st)).
    destruct (get_kb_response_run query (logged [Log INFO "Processing product-specific query"] st))
      as (r & evs & st' & Hr & Ht & Hq & Hh).
    exists r, (Log INFO "Processing product-specific query" ::
               Log INFO ("Getting knowledge base response for query: " +:+ query) :: evs), st'.
    rewrite Hr, Ht, Hh. simpl. rewrite <- app_assoc.
    repeat split.
    + change (S (count kb_invoked evs) = 1). now rewrite count_quiet_kb.
    + change (count generic_invoked evs = 0). now apply count_quiet_generic.
  - rewrite (run_bind _ _ _ _ _ (run_emit _ st)).
    destruct (get_generic_response_run query (logged [Log INFO "Processing generic query"] st))
      as (r & evs & st' & Hr & Ht & Hq & Hh).
    exists r, (Log INFO "Processing generic query" ::
               Log INFO ("Getting generic response for query: " +:+ query) :: evs), st'.
    rewrite Hr, Ht, Hh. simpl. rewrite <- app_assoc.
    repeat split.
    + change (count kb_invoked evs = 0). now apply count_quiet_kb.
    + change (S (count generic_invoked evs) = 1). now rewrite count_quiet_generic.
Qed.

Lemma open_turn_run (query : string) (st : state W) :
  exists st0,
    open_turn query st = (inr tt, st0)
    /\ trace st0 =
         trace st ++
         [Log INFO ("New query received: " +:+ query); StChatMessage "user";
          StMarkdown query false; StChatMessage "assistant";
          StSpinner "Processing..."]
    /\ chat_history st0 =
         chat_history st ++ [{| role := "user"; content := JStr query |}]
    /\ world st0 = world st
    /\ bedrock_runtime st0 = bedrock_runtime st
    /\ bedrock_agent st0 = bedrock_agent st.
Proof.
  eexists. split; [reflexivity |]. simpl. rewrite <- !app_assoc. auto.
Qed.

Lemma record_category_run (category : string) (st : state W) :
  exists st2,
    record_category category st = (inr tt, st2)
    /\ trace st2 =
         trace st ++
         [Log INFO ("Query classification added to chat history: " +:+ category)]
    /\ chat_history st2 =
         chat_history st ++
         [{| role := "system"; content := JStr ("Classified as: " +:+ category) |}]
    /\ world st2 = world st
    /\ bedrock_runtime st2 = bedrock_runtime st
    /\ bedrock_agent st2 = bedrock_agent st.
Proof. eexists. split; [reflexivity |]. simpl. auto. Qed.

Lemma show_response_run (response : json) (st : state W) :
  exists st',
    show_response rt response st = (inr tt, st')
    /\ trace st' =
         trace st ++
         (if truthy response
          then [StMarkdown (fstr rt response) false;
                Log INFO "Assistant response added to chat history"]
          else [Log WARNING "No response generated"])
    /\ chat_history st' =
         chat_history st ++
         (if truthy response
          then [{| role := "assistant"; content := response |}]
          else []).
Proof.
  unfold show_response. destruct (truthy response).
  - eexists. split; [reflexivity |]. simpl. rewrite <- !app_assoc. auto.
  - eexists. split; [reflexivity |]. simpl. rewrite app_nil_r. auto.
Qed.

Lemma count_show_response (f : event -> bool) (response : json) :
  (forall text html, f (StMarkdown text html) = false) ->
  f (Log INFO "Assistant response added to chat history") = false ->
  f (Log WARNING "No response generated") = false ->
  count f (if truthy response
           then [StMarkdown (fstr rt response) false;
                 Log INFO "Assistant response added to chat history"]
           else [Log WARNING "No response generated"]) = 0.
Proof.
  intros Hm Hi Hw. unfold count. destruct (truthy response); simpl.
  - now rewrite Hm, Hi.
  - now rewrite Hw.
Qed.

(** A turn runs its five steps to the end, one after the other; the events
    it adds hold one invocation of an answer path, the one the label
    selects; the chat history grows by the user message, the system message
    and, for a response that is true, the assistant message. *)
Lemma chat_turn_run (query : string) (st : state W) :
  exists st0 category st1 st2 response st3 st' evs,
    open_turn query st = (inr tt, st0)
    /\ classify_query rt env query st0 = (inr category, st1)
    /\ record_category category st1 = (inr tt, st2)
    /\ answer_path rt env category query st2 = (inr response, st3)
    /\ show_response rt response st3 = (inr tt, st')
    /\ chat_turn rt env query st = (inr tt, st')
    /\ trace st' = trace st ++ evs
    /\ count kb_invoked evs = (if String.eqb category "Product" then 1 else 0)
    /\ count generic_invoked evs = (if String.eqb category "Product" then 0 else 1)
    /\ chat_history st' =
         chat_history st ++
         [{| role := "user"; content := JStr query |};
          {| role := "system"; content := JStr ("Classified as: " +:+ category) |}] ++
         (if truthy response
          then [{| role := "assistant"; content := response |}]
          else []).
Proof.
  destruct (open_turn_run query st) as (st0 & H0 & T0 & C0 & _).
  destruct (returns_run _ st0 (returns_classify_query query)) as (category & st1 & H1).
  destruct (frames_classify_query query st0) as (evs1 & T1 & Q1 & C1).
  rewrite H1 in T1, C1. simpl in T1, C1.
  destruct (record_category_run category st1) as (st2 & H2 & T2 & C2 & _).
  destruct (answer_path_run category query st2)
    as (response & evs3 & st3 & H3 & T3 & K3 & G3 & C3).
  destruct (show_response_run response st3) as (st' & H4 & T4 & C4).
  exists st0, category, st1, st2, response, st3, st'.
  eexists. repeat (split; [eassumption |]).
  split.
  { unfold chat_turn.
    rewrite (run_bind _ _ _ _ _ H0), (run_bind _ _ _ _ _ H1),
            (run_bind _ _ _ _ _ H2), (run_bind _ _ _ _ _ H3).
    exact H4. }
  split.
  { rewrite T4, T3, T2, T1, T0. rewrite <- !app_assoc. reflexivity. }
  split; [| split].
  - rewrite !count_app, K3, (count_quiet_kb _ Q1).
    rewrite count_show_response by (intros; reflexivity).
    change (count kb_invoked [_; _; _; _; _]) with 0.
    change (count kb_invoked [_]) with 0.
    lia.
  - rewrite !count_app, G3, (count_quiet_generic _ Q1).
    rewrite count_show_response by (intros; reflexivity).
    change (count generic_invoked [_; _; _; _; _]) with 0.
    change (count generic_invoked [_]) with 0.
    lia.
  - rewrite C4, C3, C2, C1, C0. rewrite <- !app_assoc. reflexivity.
Qed.

(** C1: in a turn, [classify_query] returns a label, [Product] or
    [Generic] (the latter also after a failure inside it), and the turn
    ends without an exception.  What the turn does between the storing of
    the label and the showing of the response is one run of one function:
    of [get_kb_response] when the label is [Product], of
    [get_generic_response] when it is not; the response the turn shows and
    stores is the value that run returned, and the state the turn goes on
    from is the state that run left.  Among the events the turn adds there
    is one invocation of an answer path in all, of [get_kb_response]
    exactly when the label is [Product], of [get_generic_response] exactly
    when it is not. *)
Theorem one_answer_path_per_turn (query : string) (st : state W) :
  exists st0 category st1 st2 response st3 st' evs,
    open_turn query st = (inr tt, st0)
    /\ classify_query rt env query st0 = (inr category, st1)
    /\ (category = "Product" \/ category = "Generic")
    /\ record_category category st1 = (inr tt, st2)
    /\ (category = "Product" ->
        get_kb_response rt env query
          (logged [Log INFO "Processing product-specific query"] st2)
        = (inr response, st3))
    /\ (category <> "Product" ->
        get_generic_response rt env query
          (logged [Log INFO "Processing generic query"] st2)
        = (inr response, st3))
    /\ show_response rt response st3 = (inr tt, st')
    /\ chat_turn rt env query st = (inr tt, st')
    /\ trace st' = trace st ++ evs
    /\ count kb_invoked evs + count generic_invoked evs = 1
    /\ (count kb_invoked evs = 1 <-> category = "Product")
    /\ (count generic_invoked evs = 1 <-> category <> "Product").
Proof.
  destruct (chat_turn_run query st)
    as (st0 & category & st1 & st2 & response & st3 & st' & evs &
        H0 & H1 & H2 & H3 & H4 & Ht & T & K & G & _).
  exists st0, category, st1, st2, response, st3, st', evs.
  split; [exact H0 |]. split; [exact H1 |].
  split; [eapply classify_query_label; exact H1 |].
  split; [exact H2 |].
  unfold answer_path in H3. rewrite K, G.
  destruct (String.eqb_spec category "Product") as [->|Hne].
  - rewrite (run_bind _ _ _ _ _ (run_emit _ st2)) in H3.
    split; [intros _; exact H3 |].
    split; [intros H; now elim H |].
    split; [exact H4 |]. split; [exact Ht |]. split; [exact T |].
    split; [reflexivity |]. split; split; auto; try discriminate.
    intros H; now elim H.
  - rewrite (run_bind _ _ _ _ _ (run_emit _ st2)) in H3.
    split; [intros H; now elim Hne |].
    split; [intros _; exact H3 |].
    split; [exact H4 |]. split; [exact Ht |]. split; [exact T |].
    split; [reflexivity |]. split; split; auto; try discriminate.
    intros H; now elim Hne.
Qed.

(** C9: a turn appends the user message and the system message with the
    label in every case, and after them the assistant message exactly when
    the response of the chosen path is true, which for a string means not
    empty; the response is rendered in that case, and otherwise the turn
    adds a warning to the log and nothing to the page. *)
Theorem history_of_a_turn (query : string) (st : state W) :
  exists st0 category st1 st2 response st3 st',
    open_turn query st = (inr tt, st0)
    /\ classify_query rt env query st0 = (inr category, st1)
    /\ record_category category st1 = (inr tt, st2)
    /\ answer_path rt env category query st2 = (inr response, st3)
    /\ chat_turn rt env query st = (inr tt, st')
    /\ chat_history st3 =
         chat_history st ++
         [{| role := "user"; content := JStr query |};
          {| role := "system"; content := JStr ("Classified as: " +:+ category) |}]
    /\ chat_history st' =
         chat_history st3 ++
         (if truthy response
          then [{| role := "assistant"; content := response |}]
          else [])
    /\ trace st' =
         trace st3 ++
         (if truthy response
          then [StMarkdown (fstr rt response) false;
                Log INFO "Assistant response added to chat history"]
          else [Log WARNING "No response generated"])
    /\ (forall s, response = JStr s -> (truthy response = true <-> s <> "")).
Proof.
  destruct (chat_turn_run query st)
    as (st0 & category & st1 & st2 & response & st3 & st' & evs &
        H0 & H1 & H2 & H3 & H4 & Ht & _ & _ & _ & C).
  exists st0, category, st1, st2, response, st3, st'.
  repeat (split; [eassumption |]).
  destruct (show_response_run response st3) as (st'' & H4' & T4 & C4).
  rewrite H4 in H4'. injection H4' as <-.
  destruct (open_turn_run query st) as (st0' & H0' & _ & C0 & _).
  rewrite H0 in H0'. injection H0' as <-.
  destruct (frames_classify_query query st0) as (evs1 & _ & _ & C1).
  rewrite H1 in C1. simpl in C1.
  destruct (record_category_run category st1) as (st2' & H2' & _ & C2 & _).
  rewrite H2 in H2'. injection H2' as <-.
  destruct (answer_path_run category query st2)
    as (response' & evs3 & st3' & H3' & _ & _ & _ & C3).
  rewrite H3 in H3'. injection H3' as <- <-.
  split; [rewrite C3, C2, C1, C0, <- app_assoc; reflexivity |].
  split; [exact C4 |]. split; [exact T4 |].
  intros s ->. simpl. destruct (String.eqb_spec s "") as [->|Hne]; simpl.
  - split; [discriminate | intros H; now elim H].
  - split; auto.
Qed.

(** *** Calls of the services *)

Lemma runtime_invoke_model_run (req : invoke_request) (st : state W)
    (r : res json) (w' : W) :
  bedrock_runtime st = true ->
  invoke_model rt req (world st) = (r, w') ->
  runtime_invoke_model rt req st =
  (r, {| world := w'; trace := trace st ++ [InvokeModel req];
         chat_history := chat_history st;
         bedrock_runtime := bedrock_runtime st;
         bedrock_agent := bedrock_agent st |}).
Proof.
  intros Hb Hr. unfold runtime_invoke_model, bind, emit, call. simpl.
  rewrite Hr, Hb. reflexivity.
Qed.

Lemma agent_retrieve_and_generate_run (req : rag_request) (st : state W)
    (r : res json) (w' : W) :
  bedrock_agent st = true ->
  retrieve_and_generate rt req (world st) = (r, w') ->
  agent_retrieve_and_generate rt req st =
  (r, {| world := w'; trace := trace st ++ [RetrieveAndGenerate req];
         chat_history := chat_history st;
         bedrock_runtime := bedrock_runtime st;
         bedrock_agent := bedrock_agent st |}).
Proof.
  intros Hb Hr. unfold agent_retrieve_and_generate, bind, emit, call. simpl.
  rewrite Hr, Hb. reflexivity.
Qed.

(** *** A failing try block *)

Lemma classify_query_raised (query : string) (st : state W) (e : exn) (st1 : state W) :
  classify_try rt env query (logged [Log INFO ("Classifying query: " +:+ query)] st)
    = (inl e, st1) ->
  classify_query rt env query st =
  (inr "Generic",
   logged [Log ERROR ("Classification error: " +:+ str_exn rt e);
           LogTraceback e;
           StError ("Classification error: " +:+ str_exn rt e)] st1).
Proof.
  intros H. unfold classify_query.
  rewrite (run_bind _ _ _ _ _ (run_emit _ st)), (run_try_raise _ _ _ _ _ H).
  unfold classify_except.
  rewrite !(run_bind _ _ _ _ _ (run_emit _ _)), !logged_logged. reflexivity.
Qed.

Lemma get_kb_response_raised (query : string) (st : state W) (e : exn) (st1 : state W) :
  kb_try rt env query
    (logged [Log INFO ("Getting knowledge base response for query: " +:+ query)] st)
    = (inl e, st1) ->
  get_kb_response rt env query st =
  (inr (JStr ""),
   logged [Log ERROR ("Knowledge base error: " +:+ str_exn rt e);
           LogTraceback e;
           StError ("Knowledge base error: " +:+ str_exn rt e)] st1).
Proof.
  intros H. unfold get_kb_response.
  rewrite (run_bind _ _ _ _ _ (run_emit _ st)), (run_try_raise _ _ _ _ _ H).
  unfold kb_except.
  rewrite !(run_bind _ _ _ _ _ (run_emit _ _)), !logged_logged. reflexivity.
Qed.

Lemma get_generic_response_raised (query : string) (st : state W) (e : exn)
    (st1 : state W) :
  generic_try rt env query
    (logged [Log INFO ("Getting generic response for query: " +:+ query)] st)
    = (inl e, st1) ->
  get_generic_response rt env query st =
  (inr (JStr ""),
   logged [Log ERROR ("Generic response error: " +:+ str_exn rt e);
           LogTraceback e;
           StError ("Generic response error: " +:+ str_exn rt e)] st1).
Proof.
  intros H. unfold get_generic_response.
  rewrite (run_bind _ _ _ _ _ (run_emit _ st)), (run_try_raise _ _ _ _ _ H).
  unfold generic_except.
  rewrite !(run_bind _ _ _ _ _ (run_emit _ _)), !logged_logged. reflexivity.
Qed.



(** C6: an exception raised in the try block of [get_kb_response] or of
    [get_generic_response] is logged, shown with [st.error] and turned into
    the empty string; from no state does either function raise; and a turn
    whose label is [Product] and whose knowledge-base block raises ends
    with that empty response: [get_generic_response] is not invoked, no
    assistant message is stored, the last record is the warning that no
    response was generated. *)
Theorem answer_errors_are_swallowed :
  (forall query st e st1,
     kb_try rt env query
       (logged [Log INFO ("Getting knowledge base response for query: " +:+ query)] st)
       = (inl e, st1) ->
     get_kb_response rt env query st =
     (inr (JStr ""),
      logged [Log ERROR ("Knowledge base error: " +:+ str_exn rt e);
              LogTraceback e;
              StError ("Knowledge base error: " +:+ str_exn rt e)] st1))
  /\ (forall query st e st1,
        generic_try rt env query
          (logged [Log INFO ("Getting generic response for query: " +:+ query)] st)
          = (inl e, st1) ->
        get_generic_response rt env query st =
        (inr (JStr ""),
         logged [Log ERROR ("Generic response error: " +:+ str_exn rt e);
                 LogTraceback e;
                 StError ("Generic response error: " +:+ str_exn rt e)] st1))
  /\ (forall query st,
        (exists r st', get_kb_response rt env query st = (inr r, st'))
        /\ (exists r st', get_generic_response rt env query st = (inr r, st')))
  /\ (forall query st st0 st1 st2 e st3,
        open_turn query st = (inr tt, st0) ->
        classify_query rt env query st0 = (inr "Product", st1) ->
        record_category "Product" st1 = (inr tt, st2) ->
        kb_try rt env query
          (logged [Log INFO ("Getting knowledge base response for query: " +:+ query)]
             (logged [Log INFO "Processing product-specific query"] st2))
          = (inl e, st3) ->
        exists st' evs,
          chat_turn rt env query st = (inr tt, st')
          /\ trace st' = trace st ++ evs
          /\ count kb_invoked evs = 1
          /\ count generic_invoked evs = 0
          /\ trace st' =
               trace st3 ++
               [Log ERROR ("Knowledge base error: " +:+ str_exn rt e);
                LogTraceback e;
                StError ("Knowledge base error: " +:+ str_exn rt e);
                Log WARNING "No response generated"]
          /\ chat_history st' =
               chat_history st ++
               [{| role := "user"; content := JStr query |};
                {| role := "system"; content := JStr "Classified as: Product" |}]).
Proof.
  split; [exact get_kb_response_raised |].
  split; [exact get_generic_response_raised |].
  split.
  { intros query st. split; apply returns_run.
    - apply returns_get_kb_response.
    - apply returns_get_generic_response. }
  intros query st st0 st1 st2 e st3 H0 H1 H2 Hkb.
  destruct (chat_turn_run query st)
    as (st0' & category & st1' & st2' & response & st3' & st' & evs &
        H0' & H1' & H2' & H3' & H4' & Ht & T & K & G & C).
  rewrite H0 in H0'. injection H0' as <-.
  rewrite H1 in H1'. injection H1' as <- <-.
  rewrite H2 in H2'. injection H2' as <-.
  unfold answer_path in H3'. simpl in H3'.
  rewrite (run_bind _ _ _ _ _ (run_emit _ st2)) in H3'.
  rewrite (get_kb_response_raised _ _ _ _ Hkb) in H3'.
  injection H3' as <- <-.
  destruct (show_response_run (JStr "") (logged
              [Log ERROR ("Knowledge base error: " +:+ str_exn rt e);
               LogTraceback e;
               StError ("Knowledge base error: " +:+ str_exn rt e)] st3))
    as (st'' & H4 & T4 & _).
  rewrite H4' in H4. injection H4 as <-.
  exists st', evs. repeat (split; [assumption |]).
  split.
  - rewrite T4. simpl. rewrite <- app_assoc. reflexivity.
  - rewrite C. simpl. reflexivity.
Qed.

End Pipeline.

(* ===================================================================== *)
(** ** The text of a model response *)
(* ===================================================================== *)

Lemma text_items_objects (fragments : list (list (string * json))) :
  text_items (map JObj fragments) = inr (omap (assoc "text") fragments).
Proof.
  induction fragments as [|f rest IH]; [reflexivity |].
  simpl. destruct (assoc "text" f) as [v|]; [| exact IH].
  now rewrite IH.
Qed.

Lemma join_empty_texts (fragments : list (list (string * json))) (result : string) :
  join_empty (omap (assoc "text") fragments) = inr result ->
  result = concat_fragment_texts fragments.
Proof.
  revert result. induction fragments as [|f rest IH]; intros result; simpl.
  - intros H. congruence.
  - unfold fragment_text. destruct (assoc "text" f) as [v|]; [| apply IH].
    destruct v; simpl; try (intros H; discriminate H).
    match goal with
    | |- context [join_empty ?l] => destruct (join_empty l) as [e|t] eqn:E
    end; intros H; [discriminate H |].
    injection H as <-. f_equal. apply IH, E.
Qed.

Lemma join_empty_texts_total (fragments : list (list (string * json))) :
  (forall f v, In f fragments -> assoc "text" f = Some v -> exists s, v = JStr s) ->
  join_empty (omap (assoc "text") fragments) = inr (concat_fragment_texts fragments).
Proof.
  induction fragments as [|f rest IH]; intros Hstr; [reflexivity |].
  simpl. unfold fragment_text.
  destruct (assoc "text" f) as [v|] eqn:E.
  - destruct (Hstr f v) as [s ->]; [now left | exact E |].
    simpl.
    match goal with
    | |- context [join_empty ?l] =>
        change (join_empty l) with (join_empty (omap (assoc "text") rest))
    end.
    rewrite IH; [reflexivity |].
    intros f' v' Hin. apply Hstr. now right.
  - apply IH. intros f' v' Hin. apply Hstr. now right.
Qed.

Lemma response_text_fragments (response_body : json)
    (fragments : list (list (string * json))) :
  path response_body [KStr "output"; KStr "message"; KStr "content"]
    = inr (JArr (map JObj fragments)) ->
  response_text response_body = join_empty (omap (assoc "text") fragments).
Proof.
  intros H. unfold response_text. rewrite H. simpl.
  now rewrite text_items_objects.
Qed.

Section Answers.

Context {W : Type}.
Variable rt : runtime W.
Variable env : gmap string string.

Lemma run_lift {A : Type} (r : res A) (st : state W) : lift r st = (r, st).
Proof. reflexivity. Qed.

(** [classify_query] on a response that can be read. *)
Lemma classify_query_answered (query : string) (st : state W)
    (response_body : json) (w' : W) (text name : string) :
  bedrock_runtime st = true ->
  invoke_model rt (model_request env (classify_system_text env) query 10) (world st)
    = (inr response_body, w') ->
  response_text response_body = inr text ->
  getenv env "PRODUCT_NAME" = Some name ->
  exists st1,
    classify_query rt env query st =
      (inr (if Text.contains (Text.lower name) (Text.lower text)
            then "Product" else "Generic"), st1)
    /\ trace st1 =
         trace st ++
         [Log INFO ("Classifying query: " +:+ query);
          InvokeModel (model_request env (classify_system_text env) query 10);
          Log INFO ("Query classified as: " +:+
                    (if Text.contains (Text.lower name) (Text.lower text)
                     then "Product" else "Generic"))]
    /\ world st1 = w'
    /\ chat_history st1 = chat_history st.
Proof.
  intros Hb Hr Htext Hname. eexists. split.
  - unfold classify_query.
    rewrite (run_bind _ _ _ _ _ (run_emit _ st)).
    apply run_try. unfold classify_try.
    erewrite run_bind by (apply runtime_invoke_model_run; [exact Hb | exact Hr]).
    rewrite Htext. erewrite run_bind by apply run_lift.
    unfold names_product. rewrite Hname.
    erewrite run_bind by apply run_lift.
    erewrite run_bind by apply run_emit.
    reflexivity.
  - simpl. rewrite <- !app_assoc. auto.
Qed.

(** [get_generic_response] on a response that can be read. *)
Lemma get_generic_response_answered (query : string) (st : state W)
    (response_body : json) (w' : W) (text : string) :
  bedrock_runtime st = true ->
  invoke_model rt (model_request env generic_system_text query 500) (world st)
    = (inr response_body, w') ->
  response_text response_body = inr text ->
  exists st1,
    get_generic_response rt env query st = (inr (JStr text), st1)
    /\ trace st1 =
         trace st ++
         [Log INFO ("Getting generic response for query: " +:+ query);
          InvokeModel (model_request env generic_system_text query 500);
          Log INFO "Successfully generated generic response"]
    /\ world st1 = w'
    /\ chat_history st1 = chat_history st.
Proof.
  intros Hb Hr Htext. eexists. split.
  - unfold get_generic_response.
    rewrite (run_bind _ _ _ _ _ (run_emit _ st)).
    apply run_try. unfold generic_try.
    erewrite run_bind by (apply runtime_invoke_model_run; [exact Hb | exact Hr]).
    rewrite Htext. erewrite run_bind by apply run_lift.
    erewrite run_bind by apply run_emit.
    reflexivity.
  - simpl. rewrite <- !app_assoc. auto.
Qed.

End Answers.

(* ===================================================================== *)
(** ** The citation of a knowledge-base response *)
(* ===================================================================== *)

Lemma path_step (v : json) (k : key) (ks : list key) (x : json) :
  subscript v k = inr x -> path v (k :: ks) = path x ks.
Proof. intros H. simpl. now rewrite H. Qed.

Lemma subscript_first (x : json) (l : list json) :
  subscript (JArr (x :: l)) (KInt 0) = inr x.
Proof. reflexivity. Qed.

Lemma has_reference_first (kb_response group ref : json) (groups refs : list json) :
  subscript kb_response (KStr "citations") = inr (JArr (group :: groups)) ->
  subscript group (KStr "retrievedReferences") = inr (JArr (ref :: refs)) ->
  has_reference kb_response = inr true.
Proof.
  intros Hc Hg. unfold has_reference.
  rewrite (path_step _ _ _ _ Hc). simpl path at 1. cbv iota.
  change (len (JArr (group :: groups))) with (@inr exn Z (Z.of_nat (S (length groups)))).
  cbv iota. change (Z.of_nat (S (length groups)) >? 0)%Z with true. cbv iota.
  rewrite (path_step _ _ _ _ Hc), (path_step _ _ _ _ (subscript_first _ _)),
          (path_step _ _ _ _ Hg).
  reflexivity.
Qed.



Lemma first_reference_path (kb_response group ref : json) (groups refs : list json)
    (ks : list key) :
  subscript kb_response (KStr "citations") = inr (JArr (group :: groups)) ->
  subscript group (KStr "retrievedReferences") = inr (JArr (ref :: refs)) ->
  path kb_response
    (KStr "citations" :: KInt 0 :: KStr "retrievedReferences" :: KInt 0 :: ks)
  = path ref ks.
Proof.
  intros Hc Hg.
  now rewrite (path_step _ _ _ _ Hc), (path_step _ _ _ _ (subscript_first _ _)),
              (path_step _ _ _ _ Hg), (path_step _ _ _ _ (subscript_first _ _)).
Qed.

Section Citations.

Context {W : Type}.
Variable rt : runtime W.
Variable env : gmap string string.


End Citations.

(* ===================================================================== *)
(** ** The claims about the answers *)
(* ===================================================================== *)




(** C2: on a response whose text can be read, [classify_query] returns
    [Product] exactly when the lower-cased product name is a substring of
    the lower-cased text, and [Generic] exactly when it is not.  With the
    product name [Acme], the text [this is about acme products] gives
    [Product] and the text [I don't know] gives [Generic]. *)
Theorem classify_by_product_name :
  (forall (W : Type) (rt : runtime W) (env : gmap string string)
          (query : string) (st : state W) (response_body : json) (w' : W)
          (text name : string),
     bedrock_runtime st = true ->
     invoke_model rt (model_request env (classify_system_text env) query 10) (world st)
       = (inr response_body, w') ->
     response_text response_body = inr text ->
     getenv env "PRODUCT_NAME" = Some name ->
     exists c st1,
       classify_query rt env query st = (inr c, st1)
       /\ (c = "Product" <->
           exists a b, Text.lower text = a +:+ Text.lower name +:+ b)
       /\ (c = "Generic" <->
           ~ exists a b, Text.lower text = a +:+ Text.lower name +:+ b))
  /\ (forall query,
        fst (classify_query
               (Scenario.scripted (inr (Scenario.text_reply "this is about acme products"))
                                  (inl Scenario.transport_error))
               Scenario.acme query Scenario.ready)
        = inr "Product")
  /\ (forall query,
        fst (classify_query
               (Scenario.scripted (inr (Scenario.text_reply "I don't know"))
                                  (inl Scenario.transport_error))
               Scenario.acme query Scenario.ready)
        = inr "Generic").
Proof.
  split; [| split; intros query; vm_compute; reflexivity].
  intros W rt env query st response_body w' text name Hb Hr Htext Hname.
  destruct (classify_query_answered rt env query st response_body w' text name
              Hb Hr Htext Hname) as (st1 & H & _).
  eexists _, st1. split; [exact H |].
  rewrite <- contains_substring.
  destruct (Text.contains (Text.lower name) (Text.lower text)).
  - split; split; auto; try discriminate. intros Hn. now elim Hn.
  - split; split; auto; discriminate.
Qed.

Lemma classify_by_product_name_witness :
  getenv Scenario.acme "PRODUCT_NAME" = Some "Acme"
  /\ response_text (Scenario.text_reply "Ask ACME support") = inr "Ask ACME support"
  /\ exists st1,
       classify_query
         (Scenario.scripted (inr (Scenario.text_reply "Ask ACME support"))
                            (inl Scenario.transport_error))
         Scenario.acme Scenario.reset_query Scenario.ready
       = (inr "Product", st1).
Proof.
  split; [reflexivity |]. split; [reflexivity |].
  destruct (proj1 classify_by_product_name nat
              (Scenario.scripted (inr (Scenario.text_reply "Ask ACME support"))
                                 (inl Scenario.transport_error))
              Scenario.acme Scenario.reset_query Scenario.ready
              (Scenario.text_reply "Ask ACME support") 1 "Ask ACME support" "Acme"
              eq_refl eq_refl eq_refl eq_refl)
    as (c & st1 & H & Hp & _).
  exists st1. rewrite H. f_equal. f_equal. apply Hp.
  exists "ask ", " support". reflexivity.
Defined.

(** C7: when the content of a response body is a list of fragments, the
    text read from it, if the reading succeeds, is the concatenation in
    order of the ['text'] fields of the fragments that have one, the other
    fragments being skipped; the reading succeeds when those fields are
    strings.  [get_generic_response] returns that text and
    [classify_query] tests that text for the product name. *)
Theorem response_text_concatenates (response_body : json)
    (fragments : list (list (string * json))) :
  path response_body [KStr "output"; KStr "message"; KStr "content"]
    = inr (JArr (map JObj fragments)) ->
  (forall result,
     response_text response_body = inr result ->
     result = concat_fragment_texts fragments)
  /\ ((forall f v, In f fragments -> assoc "text" f = Some v -> exists s, v = JStr s) ->
      response_text response_body = inr (concat_fragment_texts fragments))
  /\ (forall (W : Type) (rt : runtime W) (env : gmap string string)
             (query : string) (st : state W) (w' : W) (result : string),
        bedrock_runtime st = true ->
        invoke_model rt (model_request env generic_system_text query 500) (world st)
          = (inr response_body, w') ->
        response_text response_body = inr result ->
        fst (get_generic_response rt env query st)
        = inr (JStr (concat_fragment_texts fragments)))
  /\ (forall (W : Type) (rt : runtime W) (env : gmap string string)
             (query : string) (st : state W) (w' : W) (result name : string),
        bedrock_runtime st = true ->
        invoke_model rt (model_request env (classify_system_text env) query 10) (world st)
          = (inr response_body, w') ->
        response_text response_body = inr result ->
        getenv env "PRODUCT_NAME" = Some name ->
        fst (classify_query rt env query st)
        = inr (if Text.contains (Text.lower name)
                    (Text.lower (concat_fragment_texts fragments))
               then "Product" else "Generic")).
Proof.
  intros Hcontent.
  assert (Hread : forall result,
            response_text response_body = inr result ->
            result = concat_fragment_texts fragments).
  { intros result H. rewrite (response_text_fragments _ _ Hcontent) in H.
    now apply join_empty_texts. }
  split; [exact Hread |]. split; [| split].
  - intros Hstr. rewrite (response_text_fragments _ _ Hcontent).
    now apply join_empty_texts_total.
  - intros W rt env query st w' result Hb Hr Htext.
    destruct (get_generic_response_answered rt env query st response_body w' result
                Hb Hr Htext) as (st1 & H & _).
    rewrite H. simpl. now rewrite (Hread _ Htext).
  - intros W rt env query st w' result name Hb Hr Htext Hname.
    destruct (classify_query_answered rt env query st response_body w' result name
                Hb Hr Htext Hname) as (st1 & H & _).
    rewrite H. simpl. now rewrite (Hread _ Htext).
Qed.

Lemma response_text_concatenates_witness :
  response_text Scenario.mixed_reply = inr "Hold power".
Proof.
  apply (proj1 (proj2 (response_text_concatenates Scenario.mixed_reply
                         Scenario.mixed_fragments eq_refl))).
  intros f v [<- | [<- | [<- | []]]] H; inversion H; eauto.
Defined.

(** C3 (the code departs from the claim): in the end-to-end scenario, with
    the product name [WidgetPro] and a text model that answers [Product] as
    its instruction asks, [classify_query] looks for [widgetpro] in
    [product], does not find it and returns [Generic]; the run does not
    call the knowledge base, invokes [get_generic_response] and shows and
    stores the word [Product] as the answer, not [Hold power for 10s.]. *)
Theorem product_reply_is_labelled_generic :
  fst (classify_query Scenario.mocked Scenario.widgetpro
         Scenario.reset_query Scenario.ready) = inr "Generic"
  /\ fst (script Scenario.mocked Scenario.widgetpro None
            (Some Scenario.reset_query) false 0) = inr Finished
  /\ chat_history (snd (script Scenario.mocked Scenario.widgetpro None
                          (Some Scenario.reset_query) false 0))
     = [{| role := "user"; content := JStr "How do I reset my device?" |};
        {| role := "system"; content := JStr "Classified as: Generic" |};
        {| role := "assistant"; content := JStr "Product" |}]
  /\ count kb_invoked (trace (snd (script Scenario.mocked Scenario.widgetpro None
                                     (Some Scenario.reset_query) false 0))) = 0
  /\ count kb_call (trace (snd (script Scenario.mocked Scenario.widgetpro None
                                  (Some Scenario.reset_query) false 0))) = 0
  /\ count generic_invoked (trace (snd (script Scenario.mocked Scenario.widgetpro None
                                          (Some Scenario.reset_query) false 0))) = 1
  /\ List.filter (fun e => match e with StMarkdown _ _ => true | _ => false end)
       (trace (snd (script Scenario.mocked Scenario.widgetpro None
                      (Some Scenario.reset_query) false 0)))
     = [StMarkdown "How do I reset my device?" false; StMarkdown "Product" false].
Proof. vm_compute. repeat split. Qed.


Lemma answer_errors_are_swallowed_witness :
  fst (kb_try Scenario.kb_down Scenario.widgetpro Scenario.reset_query
         (logged [Log INFO ("Getting knowledge base response for query: " +:+
                            Scenario.reset_query)]
            (logged [Log INFO "Processing product-specific query"]
               (snd (record_category "Product"
                  (snd (classify_query Scenario.kb_down Scenario.widgetpro
                          Scenario.reset_query
                          (snd (open_turn Scenario.reset_query Scenario.ready)))))))))
  = inl Scenario.transport_error
  /\ fst (classify_query Scenario.kb_down Scenario.widgetpro Scenario.reset_query
            (snd (open_turn Scenario.reset_query Scenario.ready)))
     = inr "Product"
  /\ exists st',
       chat_turn Scenario.kb_down Scenario.widgetpro Scenario.reset_query Scenario.ready
       = (inr tt, st')
       /\ chat_history st' =
            [{| role := "user"; content := JStr "How do I reset my device?" |};
             {| role := "system"; content := JStr "Classified as: Product" |}].
Proof.
  split; [vm_compute; reflexivity |]. split; [vm_compute; reflexivity |].
  pose (st0 := snd (open_turn (W := nat) Scenario.reset_query Scenario.ready)).
  pose (st1 := snd (classify_query Scenario.kb_down Scenario.widgetpro
                      Scenario.reset_query st0)).
  pose (st2 := snd (record_category "Product" st1)).
  pose (st3 := snd (kb_try Scenario.kb_down Scenario.widgetpro Scenario.reset_query
                      (logged [Log INFO ("Getting knowledge base response for query: " +:+
                                         Scenario.reset_query)]
                         (logged [Log INFO "Processing product-specific query"] st2)))).
  destruct (proj2 (proj2 (proj2
              (answer_errors_are_swallowed Scenario.kb_down Scenario.widgetpro)))
              Scenario.reset_query Scenario.ready st0 st1 st2
              Scenario.transport_error st3)
    as (st' & evs & Ht & _ & _ & _ & _ & C);
    try (vm_compute; reflexivity).
  exists st'. split; [exact Ht | exact C].
Defined.

(* ===================================================================== *)
(** ** Further properties: the label *)
(* ===================================================================== *)

Lemma length_append (a b : string) :
  String.length (a +:+ b) = String.length a + String.length b.
Proof.
  induction a as [|x a IH]; [reflexivity |].
  rewrite append_cons. simpl. now rewrite IH.
Qed.

Lemma length_lower (s : string) : String.length (Text.lower s) = String.length s.
Proof. induction s as [|x s IH]; simpl; [reflexivity | now rewrite IH]. Qed.

Lemma lower_append (a b : string) :
  Text.lower (a +:+ b) = Text.lower a +:+ Text.lower b.
Proof.
  induction a as [|x a IH]; [reflexivity |].
  rewrite append_cons. simpl. rewrite append_cons. now rewrite IH.
Qed.

Lemma contains_length (needle hay : string) :
  Text.contains needle hay = true -> String.length needle <= String.length hay.
Proof.
  rewrite contains_substring. intros (a & b & ->).
  rewrite !length_append. lia.
Qed.

(** X1: the validation lets a run pass exactly when each of the seven
    required variables is set to a string that is not empty. *)
Theorem validation_passes_iff_all_set (env : gmap string string) :
  missing_vars env = [] <->
  forall v, In v required_env_vars -> exists s, env !! v = Some s /\ s <> "".
Proof.
  split.
  - intros Hnone v Hv.
    destruct (env !! v) as [s|] eqn:E.
    + exists s. split; [reflexivity |]. intros ->.
      assert (Hin : In v (missing_vars env)) by (apply missing_vars_spec; auto).
      rewrite Hnone in Hin. destruct Hin.
    + assert (Hin : In v (missing_vars env)) by (apply missing_vars_spec; auto).
      rewrite Hnone in Hin. destruct Hin.
  - intros Hall. destruct (missing_vars env) as [|v rest] eqn:E; [reflexivity |].
    assert (Hin : In v (missing_vars env)) by (rewrite E; now left).
    apply missing_vars_spec in Hin as [Hreq Hbad].
    destruct (Hall v Hreq) as (s & Hs & Hne).
    destruct Hbad as [Hbad | Hbad]; rewrite Hs in Hbad; congruence.
Qed.

(** X2: for a product name and a reply in ASCII, a reply that mentions
    the product name anywhere, in any letter case, is labelled [Product],
    whatever stands before and after the mention. *)
Theorem mention_is_product {W : Type} (rt : runtime W) (env : gmap string string)
    (query : string) (st : state W) (response_body : json) (w' : W)
    (name mention before after : string) :
  bedrock_runtime st = true ->
  invoke_model rt (model_request env (classify_system_text env) query 10) (world st)
    = (inr response_body, w') ->
  getenv env "PRODUCT_NAME" = Some name ->
  ascii_text name = true ->
  ascii_text (before +:+ mention +:+ after) = true ->
  Text.lower mention = Text.lower name ->
  response_text response_body = inr (before +:+ mention +:+ after) ->
  fst (classify_query rt env query st) = inr "Product".
Proof.
  intros Hb Hr Hname _ _ Hcase Htext.
  destruct (classify_query_answered rt env query st response_body w' _ name
              Hb Hr Htext Hname) as (st1 & H & _).
  rewrite H. simpl.
  assert (Hc : Text.contains (Text.lower name)
                 (Text.lower (before +:+ mention +:+ after)) = true).
  { apply contains_substring. exists (Text.lower before), (Text.lower after).
    now rewrite !lower_append, Hcase. }
  now rewrite Hc.
Qed.

Lemma mention_is_product_witness :
  ascii_text "WidgetPro" = true
  /\ ascii_text "Generic, this is not about WIDGETPRO at all" = true
  /\ fst (classify_query
            (Scenario.scripted
               (inr (Scenario.text_reply "Generic, this is not about WIDGETPRO at all"))
               (inl Scenario.transport_error))
            Scenario.widgetpro Scenario.weather_query Scenario.ready)
     = inr "Product".
Proof.
  split; [reflexivity |]. split; [reflexivity |].
  apply (mention_is_product _ Scenario.widgetpro Scenario.weather_query Scenario.ready
           (Scenario.text_reply "Generic, this is not about WIDGETPRO at all") 1
           "WidgetPro" "WIDGETPRO" "Generic, this is not about " " at all");
    reflexivity.
Defined.

(** X3: for a product name and a reply in ASCII, a reply that is shorter
    than the product name is labelled [Generic]: so is, for a product name
    of more than seven characters, the one-word reply the instruction asks
    for. *)
Theorem short_reply_is_generic {W : Type} (rt : runtime W) (env : gmap string string)
    (query : string) (st : state W) (response_body : json) (w' : W)
    (name text : string) :
  bedrock_runtime st = true ->
  invoke_model rt (model_request env (classify_system_text env) query 10) (world st)
    = (inr response_body, w') ->
  getenv env "PRODUCT_NAME" = Some name ->
  response_text response_body = inr text ->
  ascii_text name = true ->
  ascii_text text = true ->
  String.length text < String.length name ->
  fst (classify_query rt env query st) = inr "Generic".
Proof.
  intros Hb Hr Hname Htext _ _ Hshort.
  destruct (classify_query_answered rt env query st response_body w' text name
              Hb Hr Htext Hname) as (st1 & H & _).
  rewrite H. simpl.
  destruct (Text.contains (Text.lower name) (Text.lower text)) eqn:E; [| reflexivity].
  apply contains_length in E. rewrite !length_lower in E. lia.
Qed.

Lemma short_reply_is_generic_witness :
  ascii_text "WidgetPro" = true
  /\ ascii_text "Product" = true
  /\ String.length "Product" < String.length "WidgetPro"
  /\ fst (classify_query Scenario.mocked Scenario.widgetpro
            Scenario.reset_query Scenario.ready) = inr "Generic".
Proof.
  assert (H : String.length "Product" < String.length "WidgetPro") by (simpl; lia).
  split; [reflexivity |]. split; [reflexivity |]. split; [exact H |].
  exact (short_reply_is_generic Scenario.mocked Scenario.widgetpro
           Scenario.reset_query Scenario.ready (Scenario.text_reply "Product") 1
           "WidgetPro" "Product" eq_refl eq_refl eq_refl eq_refl eq_refl eq_refl H).
Defined.

(* ===================================================================== *)
(** ** Further properties: reading a model response *)
(* ===================================================================== *)

Lemma join_empty_texts_failure (fragments : list (list (string * json))) (e : exn) :
  join_empty (omap (assoc "text") fragments) = inl e ->
  e = TypeError
  /\ exists f v, In f fragments /\ assoc "text" f = Some v /\ forall s, v <> JStr s.
Proof.
  induction fragments as [|f rest IH]; simpl; [intros H; discriminate H |].
  destruct (assoc "text" f) as [v|] eqn:E.
  - destruct v; simpl;
      try (intros H; injection H as <-; split; [reflexivity |];
           eexists f, _; split; [now left | split; [exact E | intros s; discriminate]]).
    match goal with
    | |- context [join_empty ?l] => destruct (join_empty l) as [e'|t] eqn:Ej
    end; intros H; [| discriminate H].
    injection H as <-. destruct (IH Ej) as (-> & f' & v' & Hin & Hv & Hs).
    split; [reflexivity |]. exists f', v'. auto.
  - intros H. destruct (IH H) as (-> & f' & v' & Hin & Hv & Hs).
    split; [reflexivity |]. exists f', v'. auto.
Qed.

Lemma join_empty_texts_non_string (fragments : list (list (string * json)))
    (f : list (string * json)) (v : json) :
  In f fragments -> assoc "text" f = Some v -> (forall s, v <> JStr s) ->
  join_empty (omap (assoc "text") fragments) = inl TypeError.
Proof.
  intros Hin Hv Hs.
  destruct (join_empty (omap (assoc "text") fragments)) as [e|t] eqn:E.
  - now destruct (join_empty_texts_failure _ _ E) as (-> & _).
  - exfalso. revert t E. induction fragments as [|g rest IH]; [destruct Hin |].
    intros t. simpl. destruct Hin as [-> | Hin].
    + rewrite Hv. destruct v; simpl; try (intros H; discriminate H).
      now elim (Hs s).
    + destruct (assoc "text" g) as [u|]; [| now apply IH].
      destruct u; simpl; try (intros H; discriminate H).
      match goal with
      | |- context [join_empty ?l] => destruct (join_empty l) as [e'|t'] eqn:Ej
      end; intros H; [discriminate H |].
      now apply (IH Hin t').
Qed.

(** X4: when the content of a response body is a list of fragments, reading
    its text fails exactly when some fragment has a ['text'] field that is
    not a string, and the exception is then a [TypeError]. *)
Theorem response_text_fails_on_non_string (response_body : json)
    (fragments : list (list (string * json))) :
  path response_body [KStr "output"; KStr "message"; KStr "content"]
    = inr (JArr (map JObj fragments)) ->
  (response_text response_body = inl TypeError <->
   exists f v, In f fragments /\ assoc "text" f = Some v /\ forall s, v <> JStr s)
  /\ (forall e, response_text response_body = inl e -> e = TypeError).
Proof.
  intros Hcontent. rewrite (response_text_fragments _ _ Hcontent). split; [split |].
  - intros H. now destruct (join_empty_texts_failure _ _ H) as (_ & Hbad).
  - intros (f & v & Hin & Hv & Hs). eapply join_empty_texts_non_string; eassumption.
  - intros e H. now destruct (join_empty_texts_failure _ _ H) as (-> & _).
Qed.

Lemma response_text_fails_on_non_string_witness :
  response_text
    (JObj [("output",
       JObj [("message",
         JObj [("content",
           JArr (map JObj [[("text", JStr "Hold ")]; [("text", JInt 10)]]))])])])
  = inl TypeError.
Proof.
  apply (proj1 (response_text_fails_on_non_string
                  (JObj [("output",
                     JObj [("message",
                       JObj [("content",
                         JArr (map JObj [[("text", JStr "Hold ")];
                                         [("text", JInt 10)]]))])])])
                  [[("text", JStr "Hold ")]; [("text", JInt 10)]] eq_refl)).
  exists [("text", JInt 10)], (JInt 10).
  split; [right; now left |]. split; [reflexivity | intros s; discriminate].
Defined.

Lemma char_contains_no_text (a : ascii) :
  Py.contains "text" (JStr (String a "")) = inr false.
Proof.
  change (Py.contains "text" (JStr (String a "")))
    with (@inr exn bool
            (if (if Ascii.eqb "t" a then Text.starts_with "ext" "" else false)
             then true else Text.contains "text" "")).
  now destruct (Ascii.eqb "t" a).
Qed.

Lemma text_items_chars (s : string) : text_items (map JStr (Text.chars s)) = inr [].
Proof.
  induction s as [|a s IH]; [reflexivity |].
  cbn [Text.chars map text_items]. now rewrite char_contains_no_text.
Qed.

Lemma textless_fragments (fragments : list (list (string * json))) :
  (forall f, In f fragments -> assoc "text" f = None) ->
  omap (assoc "text") fragments = [].
Proof.
  induction fragments as [|f rest IH]; intros H; [reflexivity |].
  simpl. rewrite (H f) by now left. apply IH. intros g Hg. apply H. now right.
Qed.

(** X5: a response whose content holds no text (a list of fragments none
    of which has a ['text'] field, or a string in place of the list) is
    read as the empty text without an exception: [get_generic_response]
    returns the empty string, logs a success and shows no error. *)
Theorem textless_content_reads_empty {W : Type} (rt : runtime W)
    (env : gmap string string) (query : string) (st : state W)
    (response_body content : json) (w' : W) :
  bedrock_runtime st = true ->
  invoke_model rt (model_request env generic_system_text query 500) (world st)
    = (inr response_body, w') ->
  path response_body [KStr "output"; KStr "message"; KStr "content"] = inr content ->
  ((exists s, content = JStr s) \/
   (exists fragments,
      content = JArr (map JObj fragments)
      /\ forall f, In f fragments -> assoc "text" f = None)) ->
  response_text response_body = inr ""
  /\ exists st1,
       get_generic_response rt env query st = (inr (JStr ""), st1)
       /\ trace st1 =
            trace st ++
            [Log INFO ("Getting generic response for query: " +:+ query);
             InvokeModel (model_request env generic_system_text query 500);
             Log INFO "Successfully generated generic response"].
Proof.
  intros Hb Hr Hcontent Hshape.
  assert (Htext : response_text response_body = inr "").
  { destruct Hshape as [(s & ->) | (fragments & -> & Hnone)].
    - unfold response_text. rewrite Hcontent. simpl iter. cbv iota.
      now rewrite text_items_chars.
    - rewrite (response_text_fragments _ _ Hcontent).
      now rewrite textless_fragments. }
  split; [exact Htext |].
  destruct (get_generic_response_answered rt env query st response_body w' ""
              Hb Hr Htext) as (st1 & H & T & _).
  exists st1. split; [exact H | exact T].
Qed.

Lemma textless_content_reads_empty_witness :
  fst (get_generic_response
         (Scenario.scripted
            (inr (JObj [("output", JObj [("message",
                    JObj [("content", JStr "Hold power for 10s.")])])]))
            (inl Scenario.transport_error))
         Scenario.widgetpro Scenario.reset_query Scenario.ready)
  = inr (JStr "").
Proof.
  destruct (proj2 (textless_content_reads_empty
              (Scenario.scripted
                 (inr (JObj [("output", JObj [("message",
                         JObj [("content", JStr "Hold power for 10s.")])])]))
                 (inl Scenario.transport_error))
              Scenario.widgetpro Scenario.reset_query Scenario.ready
              (JObj [("output", JObj [("message",
                  JObj [("content", JStr "Hold power for 10s.")])])])
              (JStr "Hold power for 10s.") 1 eq_refl eq_refl eq_refl
              (or_introl (ex_intro _ "Hold power for 10s." eq_refl))))
    as (st1 & -> & _).
  reflexivity.
Defined.

(* ===================================================================== *)
(** ** Further properties: the calls of the remote services *)
(* ===================================================================== *)

Section Silent.

Context {W : Type}.

Lemma silent_ret {A : Type} (a : A) : silent (W := W) (ret a).
Proof. intros st. exists []. simpl. now rewrite app_nil_r. Qed.

Lemma silent_raise {A : Type} (e : exn) : silent (W := W) (A := A) (raise e).
Proof. intros st. exists []. simpl. now rewrite app_nil_r. Qed.

Lemma silent_lift {A : Type} (r : res A) : silent (W := W) (lift r).
Proof. intros st. exists []. simpl. now rewrite app_nil_r. Qed.

Lemma silent_emit (e : event) : remote_call e = false -> silent (W := W) (emit e).
Proof. intros He st. exists [e]. simpl. now rewrite He. Qed.

Lemma silent_append_history (m : message) : silent (W := W) (append_history m).
Proof. intros st. exists []. simpl. now rewrite app_nil_r. Qed.

Lemma silent_bind {A B : Type} (m : M W A) (k : A -> M W B) :
  silent m -> (forall a, silent (k a)) -> silent (bind m k).
Proof.
  intros Hm Hk st. destruct (Hm st) as (evs1 & Ht & Hq & Hw & Hr & Ha).
  unfold bind. destruct (m st) as [[e|a] st1]; simpl in *.
  - exists evs1. auto.
  - destruct (Hk a st1) as (evs2 & Ht2 & Hq2 & Hw2 & Hr2 & Ha2).
    exists (evs1 ++ evs2).
    rewrite Ht2, Hw2, Hr2, Ha2, Ht, Hw, Hr, Ha, app_assoc, List.filter_app, Hq, Hq2.
    auto.
Qed.

Lemma silent_try_except {A : Type} (body : M W A) (handler : exn -> M W A) :
  silent body -> (forall e, silent (handler e)) -> silent (try_except body handler).
Proof.
  intros Hm Hk st. destruct (Hm st) as (evs1 & Ht & Hq & Hw & Hr & Ha).
  unfold try_except. destruct (body st) as [[e|a] st1]; simpl in *.
  - destruct (Hk e st1) as (evs2 & Ht2 & Hq2 & Hw2 & Hr2 & Ha2).
    exists (evs1 ++ evs2).
    rewrite Ht2, Hw2, Hr2, Ha2, Ht, Hw, Hr, Ha, app_assoc, List.filter_app, Hq, Hq2.
    auto.
  - exists evs1. auto.
Qed.

(** The handler of a try block sees the exception of the first step, or
    the rest of the block runs under it. *)
Lemma try_except_bind {A B : Type} (m : M W A) (k : A -> M W B)
    (handler : exn -> M W B) (st : state W) :
  try_except (bind m k) handler st =
  match m st with
  | (inr a, st1) => try_except (k a) handler st1
  | (inl e, st1) => handler e st1
  end.
Proof. unfold try_except, bind. now destruct (m st) as [[e|a] st1]. Qed.

End Silent.

Ltac silent_auto :=
  repeat first
    [ apply silent_ret
    | apply silent_raise
    | apply silent_lift
    | apply silent_append_history
    | apply silent_emit; reflexivity
    | apply silent_bind; [| intros ?]
    | apply silent_try_except; [| intros ?]
    | match goal with |- silent (if ?b then _ else _) => destruct b end ].

Section Calls.

Context {W : Type}.
Variable rt : runtime W.
Variable env : gmap string string.

Lemma silent_classify_except (e : exn) : silent (W := W) (classify_except rt e).
Proof. unfold classify_except. silent_auto. Qed.

Lemma silent_kb_except (e : exn) : silent (W := W) (kb_except rt e).
Proof. unfold kb_except. silent_auto. Qed.

Lemma silent_generic_except (e : exn) : silent (W := W) (generic_except rt e).
Proof. unfold generic_except. silent_auto. Qed.

Lemma silent_open_turn (query : string) : silent (W := W) (open_turn query).
Proof. unfold open_turn. silent_auto. Qed.

Lemma silent_record_category (category : string) :
  silent (W := W) (record_category category).
Proof. unfold record_category. silent_auto. Qed.

Lemma silent_show_response (response : json) : silent (W := W) (show_response rt response).
Proof. unfold show_response. silent_auto. Qed.

(** A try block that starts with one call of a service and is silent after
    it, under a silent handler. *)
Lemma one_call_block {A B : Type} (m : M W A) (k : A -> M W B)
    (handler : exn -> M W B) (st : state W) (c : event) (r : res A) (st1 : state W) :
  m st = (r, st1) ->
  trace st1 = trace st ++ [c] ->
  remote_call c = true ->
  bedrock_runtime st1 = bedrock_runtime st ->
  bedrock_agent st1 = bedrock_agent st ->
  (forall a, silent (k a)) ->
  (forall e, silent (handler e)) ->
  exists evs,
    trace (snd (try_except (bind m k) handler st)) = trace st ++ evs
    /\ List.filter remote_call evs = [c]
    /\ bedrock_runtime (snd (try_except (bind m k) handler st)) = bedrock_runtime st
    /\ bedrock_agent (snd (try_except (bind m k) handler st)) = bedrock_agent st.
Proof.
  intros Hm Ht Hc Hr Ha Hk Hh. rewrite try_except_bind, Hm.
  destruct r as [e|a].
  - destruct (Hh e st1) as (evs & Ht2 & Hq2 & _ & Hr2 & Ha2).
    exists (c :: evs). rewrite Ht2, Hr2, Ha2, Ht, <- app_assoc. simpl.
    now rewrite Hc, Hq2.
  - destruct (silent_try_except _ _ (Hk a) Hh st1) as (evs & Ht2 & Hq2 & _ & Hr2 & Ha2).
    exists (c :: evs). rewrite Ht2, Hr2, Ha2, Ht, <- app_assoc. simpl.
    now rewrite Hc, Hq2.
Qed.

Lemma classify_query_calls (query : string) (st : state W) :
  bedrock_runtime st = true ->
  exists evs,
    trace (snd (classify_query rt env query st)) = trace st ++ evs
    /\ List.filter remote_call evs =
         [InvokeModel (model_request env (classify_system_text env) query 10)]
    /\ bedrock_runtime (snd (classify_query rt env query st)) = bedrock_runtime st
    /\ bedrock_agent (snd (classify_query rt env query st)) = bedrock_agent st.
Proof.
  intros Hb. unfold classify_query. rewrite (run_bind _ _ _ _ _ (run_emit _ st)).
  unfold classify_try.
  set (req := model_request env (classify_system_text env) query 10).
  set (st0 := logged [Log INFO ("Classifying query: " +:+ query)] st).
  destruct (invoke_model rt req (world st0)) as [r w'] eqn:Hr.
  match goal with
  | |- context [try_except (bind _ ?k) _ _] =>
      destruct (one_call_block (runtime_invoke_model rt req) k (classify_except rt) st0 (InvokeModel req) r _
                  (runtime_invoke_model_run rt req st0 r w' Hb Hr) eq_refl eq_refl eq_refl eq_refl)
        as (evs & Ht & Hq & Hr' & Ha')
  end;
    [ intros a; silent_auto | intros e; apply silent_classify_except |].
  exists (Log INFO ("Classifying query: " +:+ query) :: evs).
  rewrite Ht, Hr', Ha'. simpl. rewrite <- app_assoc. auto.
Qed.

Lemma get_generic_response_calls (query : string) (st : state W) :
  bedrock_runtime st = true ->
  exists evs,
    trace (snd (get_generic_response rt env query st)) = trace st ++ evs
    /\ List.filter remote_call evs =
         [InvokeModel (model_request env generic_system_text query 500)]
    /\ bedrock_runtime (snd (get_generic_response rt env query st)) = bedrock_runtime st
    /\ bedrock_agent (snd (get_generic_response rt env query st)) = bedrock_agent st.
Proof.
  intros Hb. unfold get_generic_response. rewrite (run_bind _ _ _ _ _ (run_emit _ st)).
  unfold generic_try.
  set (req := model_request env generic_system_text query 500).
  set (st0 := logged [Log INFO ("Getting generic response for query: " +:+ query)] st).
  destruct (invoke_model rt req (world st0)) as [r w'] eqn:Hr.
  match goal with
  | |- context [try_except (bind _ ?k) _ _] =>
      destruct (one_call_block (runtime_invoke_model rt req) k (generic_except rt) st0 (InvokeModel req) r _
                  (runtime_invoke_model_run rt req st0 r w' Hb Hr) eq_refl eq_refl eq_refl eq_refl)
        as (evs & Ht & Hq & Hr' & Ha')
  end;
    [ intros a; silent_auto | intros e; apply silent_generic_except |].
  exists (Log INFO ("Getting generic response for query: " +:+ query) :: evs).
  rewrite Ht, Hr', Ha'. simpl. rewrite <- app_assoc. auto.
Qed.

Lemma get_kb_response_calls (query : string) (st : state W) :
  bedrock_agent st = true ->
  exists evs,
    trace (snd (get_kb_response rt env query st)) = trace st ++ evs
    /\ List.filter remote_call evs = [RetrieveAndGenerate (kb_request env query)]
    /\ bedrock_runtime (snd (get_kb_response rt env query st)) = bedrock_runtime st
    /\ bedrock_agent (snd (get_kb_response rt env query st)) = bedrock_agent st.
Proof.
  intros Hb. unfold get_kb_response. rewrite (run_bind _ _ _ _ _ (run_emit _ st)).
  unfold kb_try.
  set (req := kb_request env query).
  set (st0 := logged [Log INFO ("Getting knowledge base response for query: " +:+ query)] st).
  destruct (retrieve_and_generate rt req (world st0)) as [r w'] eqn:Hr.
  match goal with
  | |- context [try_except (bind _ ?k) _ _] =>
      destruct (one_call_block (agent_retrieve_and_generate rt req) k (kb_except rt) st0 (RetrieveAndGenerate req) r _
                  (agent_retrieve_and_generate_run rt req st0 r w' Hb Hr) eq_refl eq_refl eq_refl eq_refl)
        as (evs & Ht & Hq & Hr' & Ha')
  end;
    [ intros a; unfold context_markdown, source_markdown, no_context_markdown;
      silent_auto | intros e; apply silent_kb_except |].
  exists (Log INFO ("Getting knowledge base response for query: " +:+ query) :: evs).
  rewrite Ht, Hr', Ha'. simpl. rewrite <- app_assoc. auto.
Qed.

End Calls.

Section Turns.

Context {W : Type}.
Variable rt : runtime W.
Variable env : gmap string string.

Lemma answer_path_calls (category query : string) (st : state W) :
  bedrock_runtime st = true ->
  bedrock_agent st = true ->
  exists evs,
    trace (snd (answer_path rt env category query st)) = trace st ++ evs
    /\ List.filter remote_call evs =
         [if String.eqb category "Product"
          then RetrieveAndGenerate (kb_request env query)
          else InvokeModel (model_request env generic_system_text query 500)].
Proof.
  intros Hr Ha. unfold answer_path. destruct (String.eqb category "Product").
  - rewrite (run_bind _ _ _ _ _ (run_emit _ st)).
    destruct (get_kb_response_calls rt env query
                (logged [Log INFO "Processing product-specific query"] st) Ha)
      as (evs & Ht & Hq & _).
    exists (Log INFO "Processing product-specific query" :: evs).
    rewrite Ht. simpl. rewrite <- app_assoc. auto.
  - rewrite (run_bind _ _ _ _ _ (run_emit _ st)).
    destruct (get_generic_response_calls rt env query
                (logged [Log INFO "Processing generic query"] st) Hr)
      as (evs & Ht & Hq & _).
    exists (Log INFO "Processing generic query" :: evs).
    rewrite Ht. simpl. rewrite <- app_assoc. auto.
Qed.

(** X6: with both clients bound, a turn calls the services exactly twice
    and in this order: the text model with the classification request, then
    the knowledge base when the label is [Product] and the text model with
    the generic request otherwise; no call is repeated, whatever the
    services answer or raise. *)
Theorem two_service_calls_per_turn (query : string) (st : state W) :
  bedrock_runtime st = true ->
  bedrock_agent st = true ->
  exists st0 category st1 st' evs,
    open_turn query st = (inr tt, st0)
    /\ classify_query rt env query st0 = (inr category, st1)
    /\ chat_turn rt env query st = (inr tt, st')
    /\ trace st' = trace st ++ evs
    /\ List.filter remote_call evs =
         [InvokeModel (model_request env (classify_system_text env) query 10);
          if String.eqb category "Product"
          then RetrieveAndGenerate (kb_request env query)
          else InvokeModel (model_request env generic_system_text query 500)].
Proof.
  intros Hr Ha.
  destruct (chat_turn_run rt env query st)
    as (st0 & category & st1 & st2 & response & st3 & st' & evs0 &
        H0 & H1 & H2 & H3 & H4 & Ht & _).
  destruct (silent_open_turn query st) as (e0 & T0 & Q0 & _ & R0 & A0).
  rewrite H0 in T0, R0, A0. simpl in T0, R0, A0.
  rewrite <- R0 in Hr. rewrite <- A0 in Ha.
  destruct (classify_query_calls rt env query st0 Hr) as (e1 & T1 & Q1 & R1 & A1).
  rewrite H1 in T1, R1, A1. simpl in T1, R1, A1.
  rewrite <- R1 in Hr. rewrite <- A1 in Ha.
  destruct (silent_record_category category st1) as (e2 & T2 & Q2 & _ & R2 & A2).
  rewrite H2 in T2, R2, A2. simpl in T2, R2, A2.
  rewrite <- R2 in Hr. rewrite <- A2 in Ha.
  destruct (answer_path_calls category query st2 Hr Ha) as (e3 & T3 & Q3).
  rewrite H3 in T3. simpl in T3.
  destruct (silent_show_response rt response st3) as (e4 & T4 & Q4 & _).
  rewrite H4 in T4. simpl in T4.
  exists st0, category, st1, st', (e0 ++ e1 ++ e2 ++ e3 ++ e4).
  repeat (split; [assumption |]).
  split.
  - rewrite T4, T3, T2, T1, T0, <- !app_assoc. reflexivity.
  - rewrite !List.filter_app, Q0, Q1, Q2, Q3, Q4. reflexivity.
Qed.

End Turns.

Lemma two_service_calls_per_turn_witness :
  bedrock_runtime Scenario.ready = true
  /\ bedrock_agent Scenario.ready = true
  /\ List.filter remote_call
       (trace (snd (chat_turn Scenario.naming Scenario.widgetpro
                      Scenario.reset_query Scenario.ready)))
     = [InvokeModel (model_request Scenario.widgetpro
                       (classify_system_text Scenario.widgetpro)
                       Scenario.reset_query 10);
        RetrieveAndGenerate (kb_request Scenario.widgetpro Scenario.reset_query)].
Proof.
  split; [reflexivity |]. split; [reflexivity |].
  destruct (two_service_calls_per_turn Scenario.naming Scenario.widgetpro
              Scenario.reset_query Scenario.ready eq_refl eq_refl)
    as (st0 & category & st1 & st' & evs & H0 & H1 & Ht & T & Q).
  rewrite Ht. simpl snd. rewrite T. simpl app. rewrite Q.
  vm_compute in H0. injection H0 as <-.
  vm_compute in H1. injection H1 as <- _.
  reflexivity.
Defined.

(* ===================================================================== *)
(** ** Further properties: answers that are lost *)
(* ===================================================================== *)

Section Lost.

Context {W : Type}.
Variable rt : runtime W.
Variable env : gmap string string.

(** X7: when the first reference of the first citation group lacks its
    [content.text] or its [location.s3Location.uri], the lookup raises
    after the answer has been read: [get_kb_response] logs the retrieval
    as a success, then shows the error, shows no context and no source, and
    returns the empty string in place of the answer. *)
Theorem incomplete_reference_loses_answer (query : string) (st : state W)
    (kb_response answer group ref : json) (groups refs : list json)
    (w' : W) (e : exn) :
  bedrock_agent st = true ->
  retrieve_and_generate rt (kb_request env query) (world st) = (inr kb_response, w') ->
  path kb_response [KStr "output"; KStr "text"] = inr answer ->
  subscript kb_response (KStr "citations") = inr (JArr (group :: groups)) ->
  subscript group (KStr "retrievedReferences") = inr (JArr (ref :: refs)) ->
  (path ref [KStr "content"; KStr "text"] = inl e
   \/ (exists context, path ref [KStr "content"; KStr "text"] = inr context)
      /\ path ref [KStr "location"; KStr "s3Location"; KStr "uri"] = inl e) ->
  exists st1,
    get_kb_response rt env query st = (inr (JStr ""), st1)
    /\ trace st1 =
         trace st ++
         [Log INFO ("Getting knowledge base response for query: " +:+ query);
          RetrieveAndGenerate (kb_request env query);
          Log INFO "Successfully retrieved answer from knowledge base";
          Log ERROR ("Knowledge base error: " +:+ str_exn rt e);
          LogTraceback e;
          StError ("Knowledge base error: " +:+ str_exn rt e)].
Proof.
  intros Hb Hr Hans Hc Hg Hlost.
  assert (Hraise :
    kb_try rt env query
      (logged [Log INFO ("Getting knowledge base response for query: " +:+ query)] st)
    = (inl e,
       logged [Log INFO "Successfully retrieved answer from knowledge base"]
         {| world := w';
            trace := (trace st ++
                      [Log INFO ("Getting knowledge base response for query: " +:+ query)])
                     ++ [RetrieveAndGenerate (kb_request env query)];
            chat_history := chat_history st;
            bedrock_runtime := bedrock_runtime st;
            bedrock_agent := bedrock_agent st |})).
  { unfold kb_try.
    erewrite run_bind by (apply agent_retrieve_and_generate_run; [exact Hb | exact Hr]).
    rewrite Hans. erewrite run_bind by apply run_lift.
    erewrite run_bind by apply run_emit.
    rewrite (has_reference_first _ _ _ _ _ Hc Hg).
    erewrite run_bind by apply run_lift.
    apply run_bind_raise. unfold context_path, source_path.
    rewrite !(first_reference_path _ _ _ _ _ _ Hc Hg).
    destruct Hlost as [Hctx | [(context & Hctx) Hsrc]].
    - rewrite Hctx. apply run_bind_raise. apply run_lift.
    - rewrite Hctx, Hsrc. erewrite run_bind by apply run_lift.
      apply run_bind_raise. apply run_lift. }
  eexists. split; [apply get_kb_response_raised, Hraise |].
  simpl. rewrite <- !app_assoc. reflexivity.
Qed.

(** X8: [get_generic_response] returns a string, whatever the text model
    answers: the text it read, or the empty string. *)
Theorem generic_response_is_a_string (query : string) (st : state W)
    (r : json) (st' : state W) :
  get_generic_response rt env query st = (inr r, st') ->
  exists s, r = JStr s.
Proof.
  unfold get_generic_response. rewrite (run_bind _ _ _ _ _ (run_emit _ st)).
  unfold try_except.
  destruct (generic_try rt env query (logged _ st)) as [[e|a] st1] eqn:E.
  - unfold generic_except.
    rewrite !(run_bind _ _ _ _ _ (run_emit _ _)).
    intros H. injection H as <- _. now exists "".
  - intros H. injection H as -> ->. unfold generic_try in E.
    apply bind_returned in E as (body & s1 & _ & E).
    apply bind_returned in E as (text & s2 & _ & E).
    apply bind_returned in E as (u & s3 & _ & E).
    injection E as <- _. now exists text.
Qed.

(** A function whose client is not bound. *)
Lemma classify_query_unbound (query : string) (st : state W) :
  bedrock_runtime st = false ->
  classify_query rt env query st =
  (inr "Generic",
   logged [Log INFO ("Classifying query: " +:+ query);
           Log ERROR ("Classification error: " +:+
                      str_exn rt (NameError "bedrock_runtime"));
           LogTraceback (NameError "bedrock_runtime");
           StError ("Classification error: " +:+
                    str_exn rt (NameError "bedrock_runtime"))] st).
Proof.
  intros Hb.
  rewrite (classify_query_raised rt env query st (NameError "bedrock_runtime")
             (logged [Log INFO ("Classifying query: " +:+ query)] st)).
  - now rewrite logged_logged.
  - unfold classify_try. apply run_bind_raise.
    unfold runtime_invoke_model. simpl. now rewrite Hb.
Qed.

Lemma get_generic_response_unbound (query : string) (st : state W) :
  bedrock_runtime st = false ->
  get_generic_response rt env query st =
  (inr (JStr ""),
   logged [Log INFO ("Getting generic response for query: " +:+ query);
           Log ERROR ("Generic response error: " +:+
                      str_exn rt (NameError "bedrock_runtime"));
           LogTraceback (NameError "bedrock_runtime");
           StError ("Generic response error: " +:+
                    str_exn rt (NameError "bedrock_runtime"))] st).
Proof.
  intros Hb.
  rewrite (get_generic_response_raised rt env query st (NameError "bedrock_runtime")
             (logged [Log INFO ("Getting generic response for query: " +:+ query)] st)).
  - now rewrite logged_logged.
  - unfold generic_try. apply run_bind_raise.
    unfold runtime_invoke_model. simpl. now rewrite Hb.
Qed.

(** X9: when the name [bedrock_runtime] is not bound, a turn calls no
    service: the label is [Generic], both functions show their error, no
    assistant message is stored and the outside world is untouched. *)
Theorem turn_without_client (query : string) (st : state W) :
  bedrock_runtime st = false ->
  exists st',
    chat_turn rt env query st = (inr tt, st')
    /\ trace st' =
         trace st ++
         [Log INFO ("New query received: " +:+ query);
          StChatMessage "user"; StMarkdown query false;
          StChatMessage "assistant"; StSpinner "Processing...";
          Log INFO ("Classifying query: " +:+ query);
          Log ERROR ("Classification error: " +:+
                     str_exn rt (NameError "bedrock_runtime"));
          LogTraceback (NameError "bedrock_runtime");
          StError ("Classification error: " +:+
                   str_exn rt (NameError "bedrock_runtime"));
          Log INFO "Query classification added to chat history: Generic";
          Log INFO "Processing generic query";
          Log INFO ("Getting generic response for query: " +:+ query);
          Log ERROR ("Generic response error: " +:+
                     str_exn rt (NameError "bedrock_runtime"));
          LogTraceback (NameError "bedrock_runtime");
          StError ("Generic response error: " +:+
                   str_exn rt (NameError "bedrock_runtime"));
          Log WARNING "No response generated"]
    /\ chat_history st' =
         chat_history st ++
         [{| role := "user"; content := JStr query |};
          {| role := "system"; content := JStr "Classified as: Generic" |}]
    /\ world st' = world st.
Proof.
  intros Hb.
  destruct (open_turn_run query st) as (st0 & H0 & T0 & C0 & W0 & R0 & _).
  rewrite <- R0 in Hb.
  pose proof (classify_query_unbound query st0 Hb) as H1.
  destruct (record_category_run "Generic" (logged
              [Log INFO ("Classifying query: " +:+ query);
               Log ERROR ("Classification error: " +:+
                          str_exn rt (NameError "bedrock_runtime"));
               LogTraceback (NameError "bedrock_runtime");
               StError ("Classification error: " +:+
                        str_exn rt (NameError "bedrock_runtime"))] st0))
    as (st2 & H2 & T2 & C2 & W2 & R2 & _).
  simpl in T2, C2, W2, R2. rewrite <- R2 in Hb.
  pose proof (get_generic_response_unbound query
                (logged [Log INFO "Processing generic query"] st2) Hb) as H3.
  destruct (show_response_run rt (JStr "") (logged
              [Log INFO ("Getting generic response for query: " +:+ query);
               Log ERROR ("Generic response error: " +:+
                          str_exn rt (NameError "bedrock_runtime"));
               LogTraceback (NameError "bedrock_runtime");
               StError ("Generic response error: " +:+
                        str_exn rt (NameError "bedrock_runtime"))]
              (logged [Log INFO "Processing generic query"] st2)))
    as (st' & H4 & T4 & C4).
  simpl in T4, C4.
  exists st'. split; [| split; [| split]].
  - assert (Hpath : answer_path rt env "Generic" query st2 =
                    get_generic_response rt env query
                      (logged [Log INFO "Processing generic query"] st2)).
    { unfold answer_path.
      change (String.eqb "Generic" "Product") with false. cbv iota.
      now rewrite (run_bind _ _ _ _ _ (run_emit _ st2)). }
    rewrite H3 in Hpath. unfold chat_turn.
    rewrite (run_bind _ _ _ _ _ H0), (run_bind _ _ _ _ _ H1), (run_bind _ _ _ _ _ H2),
            (run_bind _ _ _ _ _ Hpath).
    exact H4.
  - rewrite T4, T2, T0, <- !app_assoc. reflexivity.
  - rewrite C4, C2, C0, app_nil_r, <- app_assoc. reflexivity.
  - assert (Hw : world st' = world st2).
    { unfold show_response in H4. simpl in H4. injection H4 as <-. reflexivity. }
    now rewrite Hw, W2, W0.
Qed.

End Lost.

Lemma incomplete_reference_loses_answer_witness :
  path Scenario.web_reply
    [KStr "citations"; KInt 0; KStr "retrievedReferences"; KInt 0;
     KStr "location"; KStr "s3Location"; KStr "uri"]
  = inl (KeyError (KStr "s3Location"))
  /\ fst (get_kb_response Scenario.web_cited Scenario.widgetpro
            Scenario.reset_query Scenario.ready) = inr (JStr "")
  /\ List.filter shown_markdown
       (trace (snd (get_kb_response Scenario.web_cited Scenario.widgetpro
                      Scenario.reset_query Scenario.ready))) = [].
Proof.
  split; [reflexivity |].
  destruct (incomplete_reference_loses_answer Scenario.web_cited Scenario.widgetpro
              Scenario.reset_query Scenario.ready Scenario.web_reply
              (JStr "Hold power for 10s.") _ _ [] [] 1 (KeyError (KStr "s3Location"))
              eq_refl eq_refl eq_refl eq_refl eq_refl
              (or_intror (conj (ex_intro _ (JStr "Reset instructions...") eq_refl)
                               eq_refl)))
    as (st1 & -> & T).
  split; [reflexivity |]. simpl snd. rewrite T. reflexivity.
Defined.

Lemma generic_response_is_a_string_witness :
  exists s,
    fst (get_generic_response Scenario.model_down Scenario.widgetpro
           Scenario.weather_query Scenario.ready) = inr (JStr s).
Proof.
  destruct (get_generic_response Scenario.model_down Scenario.widgetpro
              Scenario.weather_query Scenario.ready) as [[e|r] st'] eqn:E.
  - vm_compute in E. discriminate E.
  - destruct (generic_response_is_a_string _ _ _ _ _ _ E) as (s & ->).
    now exists s.
Defined.

Lemma turn_without_client_witness :
  exists st',
    chat_turn Scenario.no_clients Scenario.widgetpro Scenario.reset_query
      (initial_state None 0) = (inr tt, st')
    /\ chat_history st' =
         [{| role := "user"; content := JStr "How do I reset my device?" |};
          {| role := "system"; content := JStr "Classified as: Generic" |}]
    /\ world st' = 0.
Proof.
  destruct (turn_without_client Scenario.no_clients Scenario.widgetpro
              Scenario.reset_query (initial_state None 0) eq_refl)
    as (st' & H & _ & C & Hw).
  exists st'. auto.
Defined.

(* ===================================================================== *)
(** ** Further properties: one run of the script *)
(* ===================================================================== *)

Section Runs.

Context {W : Type}.
Variable rt : runtime W.
Variable env : gmap string string.

Lemma init_clients_failed (st : state W) (e : exn) (w1 : W) :
  client rt "bedrock-runtime" (world st) = (inl e, w1) ->
  init_clients rt st =
  (inr tt,
   {| world := w1;
      trace := trace st ++
               [Boto3Client "bedrock-runtime";
                Log ERROR ("Failed to initialize Bedrock clients: " +:+ str_exn rt e);
                LogTraceback e;
                StError ("Failed to initialize Bedrock clients: " +:+ str_exn rt e)];
      chat_history := chat_history st;
      bedrock_runtime := bedrock_runtime st;
      bedrock_agent := bedrock_agent st |}).
Proof.
  intros H. unfold init_clients, try_except, bind, emit, call. simpl.
  rewrite H. simpl. now rewrite <- !app_assoc.
Qed.

(** X10: the creation of the clients never raises and leaves the chat
    history alone; after it [bedrock_runtime] is bound exactly when its
    creation succeeded, [bedrock_agent] exactly when both creations
    succeeded, so that [bedrock_agent] is never bound without
    [bedrock_runtime]. *)
Theorem clients_bound_in_order (st : state W) :
  bedrock_runtime st = false ->
  bedrock_agent st = false ->
  exists st',
    init_clients rt st = (inr tt, st')
    /\ chat_history st' = chat_history st
    /\ (bedrock_runtime st' = true <->
        exists w1, client rt "bedrock-runtime" (world st) = (inr tt, w1))
    /\ (bedrock_agent st' = true <->
        exists w1 w2,
          client rt "bedrock-runtime" (world st) = (inr tt, w1)
          /\ client rt "bedrock-agent-runtime" w1 = (inr tt, w2))
    /\ (bedrock_agent st' = true -> bedrock_runtime st' = true).
Proof.
  intros Hr Ha.
  unfold init_clients, try_except, bind, emit, call, set_bedrock_runtime,
    set_bedrock_agent. simpl.
  destruct (client rt "bedrock-runtime" (world st)) as [[e|[]] w1] eqn:E1; simpl.
  - eexists. split; [reflexivity |]. simpl. rewrite Hr, Ha.
    repeat split; try discriminate.
    + intros (w & Hw). discriminate Hw.
    + intros (w & w2 & Hw & _). discriminate Hw.
  - destruct (client rt "bedrock-agent-runtime" w1) as [[e|[]] w2] eqn:E2; simpl.
    + eexists. split; [reflexivity |]. simpl. rewrite Ha.
      repeat split; eauto; try discriminate.
      intros (w & w3 & Hw & Hw3). injection Hw as <-. rewrite E2 in Hw3.
      discriminate Hw3.
    + eexists. split; [reflexivity |]. simpl. repeat split; eauto.
Qed.

Lemma validate_env_passes (st : state W) :
  missing_vars env = [] -> validate_env env st = (inr tt, st).
Proof. intros H. unfold validate_env. now rewrite H. Qed.

Lemma sidebar_run (clear_chat : bool) (st : state W) :
  exists st',
    sidebar env clear_chat st = (inr (if clear_chat then Rerun else Finished), st')
    /\ chat_history st' = (if clear_chat then [] else chat_history st)
    /\ trace st' =
         trace st ++
         [StHeader "Configuration";
          StWrite "Region:" (getenv env "AWS_REGION");
          StWrite "Model:" (getenv env "MODEL_ID");
          StWrite "Product:" (getenv env "PRODUCT_NAME")] ++
         (if clear_chat then [Log INFO "Clearing chat history"] else [])
    /\ world st' = world st.
Proof.
  unfold sidebar. destruct clear_chat.
  - eexists. split; [reflexivity |]. simpl. rewrite <- !app_assoc. auto.
  - eexists. split; [reflexivity |]. simpl. rewrite <- !app_assoc. auto.
Qed.

(** The phases of a run that passes the validation. *)
Lemma script_run (session : option (list message)) (chat_input : option string)
    (clear_chat : bool) (w : W) :
  missing_vars env = [] ->
  exists s3 sti stt st',
    world s3 = w
    /\ bedrock_runtime s3 = false
    /\ bedrock_agent s3 = false
    /\ chat_history s3 = match session with Some h => h | None => [] end
    /\ trace s3 =
         [Log INFO "Environment variables loaded";
          StTitle (fstr_opt (getenv env "APP_TITLE"));
          StSubheader "Chat Interface"] ++
         match session with
         | Some _ => []
         | None => [Log INFO "Chat history initialized"]
         end
    /\ init_clients rt s3 = (inr tt, sti)
    /\ match chat_input with
       | Some query =>
           if String.eqb query "" then stt = sti
           else chat_turn rt env query sti = (inr tt, stt)
       | None => stt = sti
       end
    /\ sidebar env clear_chat stt =
         (inr (if clear_chat then Rerun else Finished), st')
    /\ script rt env session chat_input clear_chat w =
         (inr (if clear_chat then Rerun else Finished), st').
Proof.
  intros Hm.
  assert (Hs3 : exists s3,
            (match session with
             | None => emit (Log INFO "Chat history initialized")
             | Some _ => ret tt
             end)
              (logged [StSubheader "Chat Interface"]
                 (logged [StTitle (fstr_opt (getenv env "APP_TITLE"))]
                    (logged [Log INFO "Environment variables loaded"]
                       (initial_state session w)))) = (inr tt, s3)
            /\ world s3 = w
            /\ bedrock_runtime s3 = false
            /\ bedrock_agent s3 = false
            /\ chat_history s3 = match session with Some h => h | None => [] end
            /\ trace s3 =
                 [Log INFO "Environment variables loaded";
                  StTitle (fstr_opt (getenv env "APP_TITLE"));
                  StSubheader "Chat Interface"] ++
                 match session with
                 | Some _ => []
                 | None => [Log INFO "Chat history initialized"]
                 end).
  { destruct session; eexists; (split; [reflexivity |]); simpl; auto. }
  destruct Hs3 as (s3 & H3 & W3 & R3 & A3 & C3 & T3).
  destruct (clients_bound_in_order s3 R3 A3) as (sti & Hi & _).
  assert (Ht : exists stt,
            (match chat_input with
             | Some query =>
                 if String.eqb query "" then ret tt else chat_turn rt env query
             | None => ret tt
             end) sti = (inr tt, stt)
            /\ match chat_input with
               | Some query =>
                   if String.eqb query "" then stt = sti
                   else chat_turn rt env query sti = (inr tt, stt)
               | None => stt = sti
               end).
  { destruct chat_input as [query|]; [| now exists sti].
    destruct (String.eqb query ""); [now exists sti |].
    destruct (chat_turn_run rt env query sti)
      as (_ & _ & _ & _ & _ & _ & stt & _ & _ & _ & _ & _ & _ & Hturn & _).
    now exists stt. }
  destruct Ht as (stt & Ht & Hin).
  destruct (sidebar_run clear_chat stt) as (st' & Hsb & _).
  exists s3, sti, stt, st'.
  repeat (split; [assumption |]).
  unfold script, script_body.
  rewrite (run_bind _ _ _ _ _ (run_emit _ _)).
  rewrite (run_bind _ _ _ _ _ (validate_env_passes _ Hm)).
  rewrite (run_bind _ _ _ _ _ (run_emit _ _)).
  rewrite (run_bind _ _ _ _ _ (run_emit _ _)).
  rewrite (run_bind _ _ _ _ _ H3), (run_bind _ _ _ _ _ Hi), (run_bind _ _ _ _ _ Ht).
  exact Hsb.
Qed.

(** X11: a run of the script ends in one of two ways: normally, with a
    rerun request when Clear Chat was pressed, when every required variable
    is set; or in the [ValueError] of the validation.  No exception of a
    service, of a client or of a malformed response ends a run. *)
Theorem run_ends_normally_or_at_validation (session : option (list message))
    (chat_input : option string) (clear_chat : bool) (w : W) :
  (missing_vars env = []
   /\ exists st',
        script rt env session chat_input clear_chat w =
        (inr (if clear_chat then Rerun else Finished), st'))
  \/ (missing_vars env <> []
      /\ fst (script rt env session chat_input clear_chat w) =
         inl (ValueError (missing_error_msg env))).
Proof.
  destruct (missing_vars env) as [|v rest] eqn:E.
  - left. split; [reflexivity |].
    destruct (script_run session chat_input clear_chat w E)
      as (s3 & sti & stt & st' & _ & _ & _ & _ & _ & _ & _ & _ & H).
    now exists st'.
  - right. split; [discriminate |].
    rewrite script_stops_at_validation by (rewrite E; discriminate).
    reflexivity.
Qed.

(** X12: a run that passes the validation and in which Clear Chat is not
    pressed keeps the messages the session held and appends to them: nothing
    without a chat input (or with an empty one); for a query, the user
    message, the system message with the label [classify_query] returned
    and, exactly when the value the chosen answer path returned is true,
    the assistant message with that value.  The turn starts in the state
    the creation of the clients leaves. *)
Theorem run_appends_one_turn (session : option (list message))
    (chat_input : option string) (w : W) :
  missing_vars env = [] ->
  exists s3 sti st' new,
    world s3 = w
    /\ bedrock_runtime s3 = false
    /\ bedrock_agent s3 = false
    /\ chat_history s3 = match session with Some h => h | None => [] end
    /\ trace s3 =
         [Log INFO "Environment variables loaded";
          StTitle (fstr_opt (getenv env "APP_TITLE"));
          StSubheader "Chat Interface"] ++
         match session with
         | Some _ => []
         | None => [Log INFO "Chat history initialized"]
         end
    /\ init_clients rt s3 = (inr tt, sti)
    /\ script rt env session chat_input false w = (inr Finished, st')
    /\ chat_history st' = match session with Some h => h | None => [] end ++ new
    /\ match chat_input with
       | None => new = []
       | Some query =>
           if String.eqb query "" then new = []
           else exists st0 category st1 st2 response st3,
                  open_turn query sti = (inr tt, st0)
                  /\ classify_query rt env query st0 = (inr category, st1)
                  /\ (category = "Product" \/ category = "Generic")
                  /\ record_category category st1 = (inr tt, st2)
                  /\ answer_path rt env category query st2 = (inr response, st3)
                  /\ new =
                       [{| role := "user"; content := JStr query |};
                        {| role := "system";
                           content := JStr ("Classified as: " +:+ category) |}] ++
                       (if truthy response
                        then [{| role := "assistant"; content := response |}]
                        else [])
       end.
Proof.
  intros Hm.
  destruct (script_run session chat_input false w Hm)
    as (s3 & sti & stt & st' & W3 & R3 & A3 & C3 & T3 & Hi & Hin & Hsb & H).
  destruct (clients_bound_in_order s3 R3 A3) as (sti' & Hi' & Ci & _).
  rewrite Hi in Hi'. injection Hi' as <-.
  destruct (sidebar_run false stt) as (st'' & Hsb' & Cs & _).
  rewrite Hsb in Hsb'. injection Hsb' as <-.
  assert (Hnone : stt = sti -> chat_history st' =
            match session with Some h => h | None => [] end ++ []).
  { intros ->. now rewrite Cs, Ci, C3, app_nil_r. }
  exists s3, sti, st'.
  destruct chat_input as [query|].
  - destruct (String.eqb query "").
    + exists []. repeat (split; [first [assumption | now apply Hnone] |]).
      reflexivity.
    + destruct (chat_turn_run rt env query sti)
        as (st0 & category & st1 & st2 & response & st3 & stt' & evs &
            H0 & H1 & H2 & H3 & _ & Hturn & _ & _ & _ & C).
      rewrite Hin in Hturn. injection Hturn as <-.
      eexists. repeat (split; [eassumption |]).
      split.
      * rewrite Cs, C, Ci, C3. reflexivity.
      * exists st0, category, st1, st2, response, st3.
        split; [exact H0 |]. split; [exact H1 |].
        split; [eapply classify_query_label, H1 |].
        split; [exact H2 |]. split; [exact H3 |]. reflexivity.
  - exists []. repeat (split; [first [assumption | now apply Hnone] |]).
    reflexivity.
Qed.

(** X13: when Clear Chat is pressed in a run that passes the validation,
    the run ends with an empty chat history and a rerun request, also when
    a query was answered in the same run. *)
Theorem clear_chat_empties_history (session : option (list message))
    (chat_input : option string) (w : W) :
  missing_vars env = [] ->
  exists st',
    script rt env session chat_input true w = (inr Rerun, st')
    /\ chat_history st' = [].
Proof.
  intros Hm.
  destruct (script_run session chat_input true w Hm)
    as (s3 & sti & stt & st' & _ & _ & _ & _ & _ & _ & _ & Hsb & H).
  destruct (sidebar_run true stt) as (st'' & Hsb' & Cs & _).
  rewrite Hsb in Hsb'. injection Hsb' as <-.
  exists st'. auto.
Qed.

(** X14: when the first client cannot be created, a run that passes the
    validation still ends normally: for a query it calls no service, stores
    the user message and the system message with the label [Generic] and no
    answer, and shows three errors, the one of the creation and the ones of
    the two functions that find no client. *)
Theorem run_without_clients (session : option (list message)) (query : string)
    (w w1 : W) (e : exn) :
  missing_vars env = [] ->
  client rt "bedrock-runtime" w = (inl e, w1) ->
  query <> "" ->
  exists st',
    script rt env session (Some query) false w = (inr Finished, st')
    /\ chat_history st' =
         match session with Some h => h | None => [] end ++
         [{| role := "user"; content := JStr query |};
          {| role := "system"; content := JStr "Classified as: Generic" |}]
    /\ world st' = w1
    /\ List.filter remote_call (trace st') = []
    /\ List.filter shown_error (trace st') =
         [StError ("Failed to initialize Bedrock clients: " +:+ str_exn rt e);
          StError ("Classification error: " +:+
                   str_exn rt (NameError "bedrock_runtime"));
          StError ("Generic response error: " +:+
                   str_exn rt (NameError "bedrock_runtime"))].
Proof.
  intros Hm Hc Hq.
  destruct (script_run session (Some query) false w Hm)
    as (s3 & sti & stt & st' & W3 & R3 & A3 & C3 & T3 & Hi & Hin & Hsb & H).
  rewrite <- W3 in Hc.
  rewrite (init_clients_failed s3 e w1 Hc) in Hi. injection Hi as <-.
  apply String.eqb_neq in Hq. rewrite Hq in Hin.
  match type of Hin with
  | chat_turn _ _ _ ?s = _ =>
      destruct (turn_without_client rt env query s R3) as (stt' & Ht & Tt & Ct & Wt)
  end.
  rewrite Hin in Ht. injection Ht as <-.
  destruct (sidebar_run false stt) as (st'' & Hsb' & Cs & Ts & Ws).
  rewrite Hsb in Hsb'. injection Hsb' as <-.
  simpl in Tt, Ct, Wt.
  exists st'. split; [exact H |]. split; [| split; [| split]].
  - now rewrite Cs, Ct, C3.
  - now rewrite Ws, Wt.
  - rewrite Ts, Tt, T3, !List.filter_app. destruct session; reflexivity.
  - rewrite Ts, Tt, T3, !List.filter_app. destruct session; reflexivity.
Qed.

End Runs.

Lemma clients_bound_in_order_witness :
  exists st',
    init_clients Scenario.naming (initial_state None 0) = (inr tt, st')
    /\ bedrock_runtime st' = true
    /\ bedrock_agent st' = true.
Proof.
  destruct (clients_bound_in_order Scenario.naming (initial_state None 0)
              eq_refl eq_refl)
    as (st' & H & _ & Hr & Ha & _).
  exists st'. split; [exact H |]. split.
  - apply Hr. now exists 0.
  - apply Ha. now exists 0, 0.
Defined.

Lemma run_appends_one_turn_witness :
  missing_vars Scenario.widgetpro = []
  /\ exists st',
       script Scenario.naming Scenario.widgetpro None
         (Some Scenario.reset_query) false 0 = (inr Finished, st')
       /\ chat_history st' =
            [{| role := "user"; content := JStr "How do I reset my device?" |};
             {| role := "system"; content := JStr "Classified as: Product" |};
             {| role := "assistant"; content := JStr "Hold power for 10s." |}].
Proof.
  assert (Hm : missing_vars Scenario.widgetpro = []) by (vm_compute; reflexivity).
  split; [exact Hm |].
  destruct (run_appends_one_turn Scenario.naming Scenario.widgetpro None
              (Some Scenario.reset_query) 0 Hm)
    as (s3 & sti & st' & new & _ & _ & _ & _ & _ & _ & H & _).
  exists st'. split; [exact H |].
  vm_compute in H. injection H as <-. reflexivity.
Defined.

Lemma clear_chat_empties_history_witness :
  missing_vars Scenario.widgetpro = []
  /\ exists st',
       script Scenario.naming Scenario.widgetpro
         (Some [{| role := "user"; content := JStr "earlier question" |}])
         (Some Scenario.reset_query) true 0 = (inr Rerun, st')
       /\ chat_history st' = [].
Proof.
  assert (Hm : missing_vars Scenario.widgetpro = []) by (vm_compute; reflexivity).
  split; [exact Hm |].
  exact (clear_chat_empties_history Scenario.naming Scenario.widgetpro _ _ 0 Hm).
Defined.

Lemma run_without_clients_witness :
  missing_vars Scenario.widgetpro = []
  /\ client Scenario.no_clients "bedrock-runtime" 0 = (inl Scenario.transport_error, 1)
  /\ exists st',
       script Scenario.no_clients Scenario.widgetpro None
         (Some Scenario.reset_query) false 0 = (inr Finished, st')
       /\ chat_history st' =
            [{| role := "user"; content := JStr "How do I reset my device?" |};
             {| role := "system"; content := JStr "Classified as: Generic" |}]
       /\ world st' = 1.
Proof.
  assert (Hm : missing_vars Scenario.widgetpro = []) by (vm_compute; reflexivity).
  split; [exact Hm |]. split; [reflexivity |].
  destruct (run_without_clients Scenario.no_clients Scenario.widgetpro None
              Scenario.reset_query 0 1 Scenario.transport_error Hm eq_refl)
    as (st' & H & C & Hw & _).
  - discriminate.
  - exists st'. auto.
Defined.

(** X15: a knowledge-base response without [output.text] is an error
    before anything is logged as retrieved; a response with an answer but
    without the ['citations'] key is an error after the retrieval was logged
    as a success.  In both cases [get_kb_response] shows the error and
    returns the empty string. *)
Theorem malformed_kb_response_loses_answer {W : Type} (rt : runtime W)
    (env : gmap string string) (query : string) (st : state W)
    (kb_response : json) (w' : W) (e : exn) :
  bedrock_agent st = true ->
  retrieve_and_generate rt (kb_request env query) (world st) = (inr kb_response, w') ->
  (path kb_response [KStr "output"; KStr "text"] = inl e ->
   exists st1,
     get_kb_response rt env query st = (inr (JStr ""), st1)
     /\ trace st1 =
          trace st ++
          [Log INFO ("Getting knowledge base response for query: " +:+ query);
           RetrieveAndGenerate (kb_request env query);
           Log ERROR ("Knowledge base error: " +:+ str_exn rt e);
           LogTraceback e;
           StError ("Knowledge base error: " +:+ str_exn rt e)])
  /\ (forall answer,
        path kb_response [KStr "output"; KStr "text"] = inr answer ->
        subscript kb_response (KStr "citations") = inl e ->
        exists st1,
          get_kb_response rt env query st = (inr (JStr ""), st1)
          /\ trace st1 =
               trace st ++
               [Log INFO ("Getting knowledge base response for query: " +:+ query);
                RetrieveAndGenerate (kb_request env query);
                Log INFO "Successfully retrieved answer from knowledge base";
                Log ERROR ("Knowledge base error: " +:+ str_exn rt e);
                LogTraceback e;
                StError ("Knowledge base error: " +:+ str_exn rt e)]).
Proof.
  intros Hb Hr. split.
  - intros Hans. eexists. split.
    + apply get_kb_response_raised. unfold kb_try.
      erewrite run_bind by (apply agent_retrieve_and_generate_run; [exact Hb | exact Hr]).
      rewrite Hans. apply run_bind_raise. apply run_lift.
    + simpl. rewrite <- !app_assoc. reflexivity.
  - intros answer Hans Hc.
    assert (Hhas : has_reference kb_response = inl e).
    { unfold has_reference. simpl path. now rewrite Hc. }
    eexists. split.
    + apply get_kb_response_raised. unfold kb_try.
      erewrite run_bind by (apply agent_retrieve_and_generate_run; [exact Hb | exact Hr]).
      rewrite Hans. erewrite run_bind by apply run_lift.
      erewrite run_bind by apply run_emit.
      rewrite Hhas. apply run_bind_raise. apply run_lift.
    + simpl. rewrite <- !app_assoc. reflexivity.
Qed.

Lemma malformed_kb_response_loses_answer_witness :
  subscript (JObj [("output", JObj [("text", JStr "Hold power for 10s.")])])
    (KStr "citations") = inl (KeyError (KStr "citations"))
  /\ fst (get_kb_response
            (Scenario.scripted (inl Scenario.transport_error)
               (inr (JObj [("output", JObj [("text", JStr "Hold power for 10s.")])])))
            Scenario.widgetpro Scenario.reset_query Scenario.ready)
     = inr (JStr "").
Proof.
  split; [reflexivity |].
  destruct (proj2 (malformed_kb_response_loses_answer
              (Scenario.scripted (inl Scenario.transport_error)
                 (inr (JObj [("output", JObj [("text", JStr "Hold power for 10s.")])])))
              Scenario.widgetpro Scenario.reset_query Scenario.ready
              (JObj [("output", JObj [("text", JStr "Hold power for 10s.")])])
              1 (KeyError (KStr "citations")) eq_refl eq_refl)
              (JStr "Hold power for 10s.") eq_refl eq_refl)
    as (st1 & -> & _).
  reflexivity.
Defined.
